(** * microscope-metrics: the samples module and the field-illumination analysis

    A shallow embedding of [microscopemetrics/samples/__init__.py] (the three
    analysis registries, the conversions from NumPy arrays and dictionaries
    to schema objects, [AnalysisMixin]) and of
    [microscopemetrics/samples/field_illum.py] ([FieldHomogeneityAnalysis]),
    followed by the properties proved about them.

    Python exceptions are values of [exn]; a call that may raise returns a
    [result].  Calls to [logger] write to the logging service only and are
    left out. *)

From Stdlib Require Import ZArith QArith List String Ascii Lia.
From Stdlib Require Import DecimalNat DecimalString.
From stdpp Require Import gmap strings list.

Close Scope Q_scope.
Local Open Scope Z_scope.
Local Open Scope nat_scope.
Local Open Scope string_scope.
Local Open Scope list_scope.

(** ** Python exceptions and results *)

Inductive exn : Type :=
  | ValueError (msg : string)
  | NotImplementedError (msg : string)
  | KeyError (key : string)
  | DuplicateRequirementError (name : string)
  | UnknownRequirementError (name : string)
  | RequirementUnmetError (name : string).

Inductive result (A : Type) : Type :=
  | Ok (a : A)
  | Raise (e : exn).

Arguments Ok {A} a.
Arguments Raise {A} e.

#[global] Instance result_ret : MRet result := fun A a => Ok a.

#[global] Instance result_bind : MBind result := fun A B k r =>
  match r with
  | Ok a => k a
  | Raise e => Raise e
  end.

(** [[f(x) for x in xs]] where [f] may raise: the first exception wins. *)
Fixpoint comprehension {A B : Type} (f : A -> result B) (xs : list A)
  : result (list B) :=
  match xs with
  | [] => Ok []
  | x :: xs' =>
      y ← f x;
      ys ← comprehension f xs';
      Ok (y :: ys)
  end.

(** [str(n)] for a non-negative integer. *)
Definition str_of_nat (n : nat) : string :=
  NilEmpty.string_of_uint (Nat.to_uint n).

(** ** NumPy arrays *)

Module Numpy.

Inductive dtype : Type :=
  | dt_bool
  | dt_int8 | dt_uint8
  | dt_int16 | dt_uint16
  | dt_int32 | dt_uint32
  | dt_int64 | dt_uint64
  | dt_float32 | dt_float64.

Definition dtype_eqb (d1 d2 : dtype) : bool :=
  match d1, d2 with
  | dt_bool, dt_bool
  | dt_int8, dt_int8 | dt_uint8, dt_uint8
  | dt_int16, dt_int16 | dt_uint16, dt_uint16
  | dt_int32, dt_int32 | dt_uint32, dt_uint32
  | dt_int64, dt_int64 | dt_uint64, dt_uint64
  | dt_float32, dt_float32 | dt_float64, dt_float64 => true
  | _, _ => false
  end.

(** An array element: a Python [bool], an integer of a NumPy integer type
    (at most 64 bits), a finite float given by its rational value, or the
    float [nan].  The infinite floats are left out. *)
Inductive scalar : Type :=
  | SBool (b : bool)
  | SInt (z : Z)
  | SFloat (q : Q)
  | SNaN.

(** The numeric value of an element; [True] counts as 1 and [nan] has no
    value. *)
Definition scalar_value (s : scalar) : option Q :=
  match s with
  | SBool b => Some (if b then 1%Q else 0%Q)
  | SInt z => Some (inject_Z z)
  | SFloat q => Some q
  | SNaN => None
  end.

(** [bool(s)]: an element is true when it is not zero; [nan] is true. *)
Definition truth (s : scalar) : bool :=
  match s with
  | SBool b => b
  | SInt z => negb (z =? 0)%Z
  | SFloat q => negb (Qeq_bool q 0)
  | SNaN => true
  end.

(** An n-dimensional array: its element type, its [shape] and the element
    stored at each multi-index.  [item] is read only at indices within
    [shape]. *)
Record ndarray : Type := mk_ndarray {
  dtype_of : dtype;
  shape : list nat;
  item : list nat -> scalar
}.

Definition ndim (a : ndarray) : nat := length (shape a).

(** [shape[k]]; the callers read it only for [k < ndim]. *)
Definition shape_at (a : ndarray) (k : nat) : nat := nth k (shape a) 0.

Definition prod (dims : list nat) : nat := fold_right Nat.mul 1 dims.

Definition size (a : ndarray) : nat := prod (shape a).

(** All multi-indices of an array of shape [dims] in row-major (C) order:
    the last index varies fastest. *)
Fixpoint indices (dims : list nat) : list (list nat) :=
  match dims with
  | [] => [[]]
  | n :: dims' =>
      flat_map (fun i => map (cons i) (indices dims')) (seq 0 n)
  end.

(** [a.flatten()]: a one-dimensional copy of the elements in row-major
    order. *)
Definition flatten (a : ndarray) : ndarray :=
  let idx := indices (shape a) in
  {| dtype_of := dtype_of a;
     shape := [length idx];
     item := fun ix =>
               match ix with
               | [k] => item a (nth k idx [])
               | _ => item a []
               end |}.

(** [a.tolist()] of a one-dimensional array: the Python list of its
    elements.  (On an array of higher rank Python nests the lists; the
    conversions below call it on the result of [flatten] only.) *)
Definition tolist (a : ndarray) : list scalar :=
  map (fun k => item a [k]) (seq 0 (shape_at a 0)).

(** [a.astype(bool)]: same shape, every element replaced by its truth
    value.  NumPy casts every numeric element type to [bool]. *)
Definition astype_bool (a : ndarray) : result ndarray :=
  Ok {| dtype_of := dt_bool;
        shape := shape a;
        item := fun ix => SBool (truth (item a ix)) |}.

(** The larger of two elements; [nan] wins over every element, as in
    [np.maximum]. *)
Definition scalar_max (s1 s2 : scalar) : scalar :=
  match scalar_value s1, scalar_value s2 with
  | Some v1, Some v2 => if Qle_bool v1 v2 then s2 else s1
  | None, _ => s1
  | Some _, None => s2
  end.

(** [np.max(a)]: the largest element, [nan] when an element is [nan]; NumPy
    raises [ValueError] on an array with no element. *)
Definition max (a : ndarray) : result scalar :=
  match tolist (flatten a) with
  | [] =>
      Raise (ValueError
        "zero-size array to reduction operation maximum which has no identity")
  | s :: rest => Ok (fold_left scalar_max rest s)
  end.

End Numpy.

(** ** The schema objects of [microscopemetrics_schema.datamodel]

    The schema package is a dependency, not part of this repository.  Its
    classes are dataclasses generated by LinkML: the constructor stores the
    keyword arguments and then checks and normalises them.  A required field
    that is [None] or an empty list raises
    [ValueError("<field> must be supplied")]; a field that holds a list of
    floats or of strings converts every entry with [float] or [str]; an
    optional list field given as [None] or as one value becomes a list. *)

(** [float(z)] for an integer [z], as an integer again: the nearest float
    with a significand of 53 bits, a tie going to the even significand.
    (Python raises [OverflowError] from 2^1024 on; the integers of a NumPy
    array are below 2^64.) *)
Definition float_of_int (z : Z) : Z :=
  let a := Z.abs z in
  if (a <? 2 ^ 53)%Z then z
  else
    let shift := (Z.log2 a - 52)%Z in
    let q := Z.shiftr a shift in
    let r := (a - Z.shiftl q shift)%Z in
    let half := Z.shiftl 1 (shift - 1) in
    let q' :=
      if (half <? r)%Z || ((r =? half)%Z && Z.odd q) then (q + 1)%Z else q in
    (Z.sgn z * Z.shiftl q' shift)%Z.

(** [float(v)] on an array element. *)
Definition py_float (v : Numpy.scalar) : Numpy.scalar :=
  match v with
  | Numpy.SBool b => Numpy.SFloat (if b then 1 else 0)
  | Numpy.SInt z => Numpy.SFloat (inject_Z (float_of_int z))
  | Numpy.SFloat q => Numpy.SFloat q
  | Numpy.SNaN => Numpy.SNaN
  end.

Module mm_schema.

Record PixelSeries : Type := { pixel_values : nat }.
Record TimeSeries : Type := { time_values : nat }.
Record ChannelSeries : Type := { channel_values : nat }.

(** [Union[str, List[str]]] *)
Inductive url_ref : Type :=
  | OneUrl (url : string)
  | ManyUrls (urls : list string).

(** [self.MissingRequiredField(field_name)] *)
Definition MissingRequiredField {A : Type} (field_name : string) : result A :=
  Raise (ValueError (field_name +:+ " must be supplied")).

(** The optional list [source_image_url] after the constructor: [None]
    becomes the empty list and one string a list of one entry. *)
Definition url_list (source_image_url : option url_ref) : list string :=
  match source_image_url with
  | None => []
  | Some (OneUrl url) => [url]
  | Some (ManyUrls urls) => urls
  end.

Record ImageMask : Type := {
  mask_name : option string;
  mask_description : option string;
  mask_image_url : string;
  mask_source_image_url : list string;
  mask_data : list Numpy.scalar;
  mask_y : PixelSeries;
  mask_x : PixelSeries
}.

Record Image2D : Type := {
  img2_name : option string;
  img2_description : option string;
  img2_image_url : string;
  img2_source_image_url : list string;
  img2_data : list Numpy.scalar;
  img2_y : PixelSeries;
  img2_x : PixelSeries
}.

Record Image5D : Type := {
  img5_name : option string;
  img5_description : option string;
  img5_image_url : string;
  img5_source_image_url : list string;
  img5_data : list Numpy.scalar;
  img5_t : TimeSeries;
  img5_z : PixelSeries;
  img5_y : PixelSeries;
  img5_x : PixelSeries;
  img5_c : ChannelSeries
}.

(** [ImageInline]: the base class of the inlined images. *)
Inductive ImageInline : Type :=
  | InlineImage2D (i : Image2D)
  | InlineImage5D (i : Image5D).

(** The call [ImageMask(name=..., ..., data=..., y=..., x=...)]:
    [image_url], the identifier, is checked first, then [data]; the entries
    of [data] are the booleans of the array and are kept. *)
Definition new_ImageMask (name description image_url : option string)
    (source_image_url : option url_ref) (data : list Numpy.scalar)
    (y x : PixelSeries) : result ImageMask :=
  match image_url with
  | None => MissingRequiredField "image_url"
  | Some url =>
      match data with
      | [] => MissingRequiredField "data"
      | _ :: _ =>
          Ok {| mask_name := name;
                mask_description := description;
                mask_image_url := url;
                mask_source_image_url := url_list source_image_url;
                mask_data := data;
                mask_y := y;
                mask_x := x |}
      end
  end.

(** The call [Image2D(...)]: as for a mask, and every entry of [data] is
    stored as [float(v)]. *)
Definition new_Image2D (name description image_url : option string)
    (source_image_url : option url_ref) (data : list Numpy.scalar)
    (y x : PixelSeries) : result Image2D :=
  match image_url with
  | None => MissingRequiredField "image_url"
  | Some url =>
      match data with
      | [] => MissingRequiredField "data"
      | _ :: _ =>
          Ok {| img2_name := name;
                img2_description := description;
                img2_image_url := url;
                img2_source_image_url := url_list source_image_url;
                img2_data := map py_float data;
                img2_y := y;
                img2_x := x |}
      end
  end.

(** The call [Image5D(...)]. *)
Definition new_Image5D (name description image_url : option string)
    (source_image_url : option url_ref) (data : list Numpy.scalar)
    (t : TimeSeries) (z y x : PixelSeries) (c : ChannelSeries)
  : result Image5D :=
  match image_url with
  | None => MissingRequiredField "image_url"
  | Some url =>
      match data with
      | [] => MissingRequiredField "data"
      | _ :: _ =>
          Ok {| img5_name := name;
                img5_description := description;
                img5_image_url := url;
                img5_source_image_url := url_list source_image_url;
                img5_data := map py_float data;
                img5_t := t;
                img5_z := z;
                img5_y := y;
                img5_x := x;
                img5_c := c |}
      end
  end.

(** A column of a table: its name and its values, which the constructor
    stores as strings. *)
Record Column : Type := {
  col_name : string;
  col_values : list string
}.

Record TableAsDict : Type := {
  table_name : option string;
  table_description : option string;
  columns : list Column
}.

Section Tables.

(** The values of a dictionary are Python objects of a type [V]; [str] is
    Python's [str] on them. *)
Context {V : Type}.
Variable str : V -> string.

(** The column built from the dictionary [{"name": k, "values": v}]: the
    required [values] may not be empty, and every value is stored as
    [str(v)]. *)
Definition new_Column (name : string) (values : list V) : result Column :=
  match values with
  | [] => MissingRequiredField "values"
  | _ :: _ => Ok {| col_name := name; col_values := map str values |}
  end.

(** The call [TableAsDict(name=..., description=..., columns=[...])]: the
    required [columns] may not be empty, and each entry is turned into a
    [Column], in order. *)
Definition new_TableAsDict (name description : option string)
    (columns : list (string * list V)) : result TableAsDict :=
  match columns with
  | [] => MissingRequiredField "columns"
  | _ :: _ =>
      cols ← comprehension (fun kv => new_Column kv.1 kv.2) columns;
      Ok {| table_name := name;
            table_description := description;
            columns := cols |}
  end.

End Tables.

End mm_schema.

Import mm_schema.

(** ** Python dictionaries

    A [dict] keeps its entries in insertion order and holds each key once:
    an association list whose keys are pairwise distinct ([dict_wf]). *)

Definition dict (V : Type) : Type := list (string * V).

Definition dict_wf {V : Type} (d : dict V) : Prop := NoDup (map fst d).

(** [d.keys()] *)
Definition dict_keys {V : Type} (d : dict V) : list string := map fst d.

(** [d[k]]; raises [KeyError] when [k] is not a key. *)
Fixpoint dict_getitem {V : Type} (d : dict V) (k : string) : result V :=
  match d with
  | [] => Raise (KeyError k)
  | (k', v) :: d' => if String.eqb k' k then Ok v else dict_getitem d' k
  end.

(** ** [microscopemetrics/samples/__init__.py] *)

(** A class object: its [__name__] and its identity. *)
Record pyclass : Type := {
  cls_name : string;
  cls_id : nat
}.

(** The three module-level registries. *)
Record registries : Type := {
  IMAGE_ANALYSIS_REGISTRY : gmap string pyclass;
  DATASET_ANALYSIS_REGISTRY : gmap string pyclass;
  PROGRESSION_ANALYSIS_REGISTRY : gmap string pyclass
}.

(** The registries as the module creates them. *)
Definition empty_registries : registries :=
  {| IMAGE_ANALYSIS_REGISTRY := ∅;
     DATASET_ANALYSIS_REGISTRY := ∅;
     PROGRESSION_ANALYSIS_REGISTRY := ∅ |}.

(** The decorators: each stores the class under its [__name__] in one
    registry and returns the class. *)
Definition register_image_analysis (cls : pyclass) (g : registries)
  : pyclass * registries :=
  (cls,
   {| IMAGE_ANALYSIS_REGISTRY := <[cls_name cls := cls]> (IMAGE_ANALYSIS_REGISTRY g);
      DATASET_ANALYSIS_REGISTRY := DATASET_ANALYSIS_REGISTRY g;
      PROGRESSION_ANALYSIS_REGISTRY := PROGRESSION_ANALYSIS_REGISTRY g |}).

Definition register_dataset_analysis (cls : pyclass) (g : registries)
  : pyclass * registries :=
  (cls,
   {| IMAGE_ANALYSIS_REGISTRY := IMAGE_ANALYSIS_REGISTRY g;
      DATASET_ANALYSIS_REGISTRY := <[cls_name cls := cls]> (DATASET_ANALYSIS_REGISTRY g);
      PROGRESSION_ANALYSIS_REGISTRY := PROGRESSION_ANALYSIS_REGISTRY g |}).

Definition register_progression_analysis (cls : pyclass) (g : registries)
  : pyclass * registries :=
  (cls,
   {| IMAGE_ANALYSIS_REGISTRY := IMAGE_ANALYSIS_REGISTRY g;
      DATASET_ANALYSIS_REGISTRY := DATASET_ANALYSIS_REGISTRY g;
      PROGRESSION_ANALYSIS_REGISTRY :=
        <[cls_name cls := cls]> (PROGRESSION_ANALYSIS_REGISTRY g) |}).

(** [try: array.astype(bool) except ValueError: raise ValueError(...)] *)
Definition try_astype_bool (array : Numpy.ndarray) : result Numpy.ndarray :=
  match Numpy.astype_bool array with
  | Ok array' => Ok array'
  | Raise (ValueError _) =>
      Raise (ValueError "Input array could not be casted to type bool")
  | Raise e => Raise e
  end.

Definition numpy_to_inlined_mask (array : Numpy.ndarray)
    (name description image_url : option string)
    (source_image_url : option url_ref) : result ImageMask :=
  if negb (Numpy.ndim array =? 2)%nat then
    Raise (ValueError "Input array should be 2D")
  else
    array ← (if negb (Numpy.dtype_eqb (Numpy.dtype_of array) Numpy.dt_bool)
                && Numpy.dtype_eqb (Numpy.dtype_of array) Numpy.dt_uint8
             then try_astype_bool array
             else Ok array);
    if negb (Numpy.dtype_eqb (Numpy.dtype_of array) Numpy.dt_bool) then
      Raise (ValueError "Input array should be of type bool")
    else
      new_ImageMask name description image_url source_image_url
        (Numpy.tolist (Numpy.flatten array))
        {| pixel_values := Numpy.shape_at array 0 |}
        {| pixel_values := Numpy.shape_at array 1 |}.

(** The exception [numpy_to_inlined_image] raises for an array of [n]
    dimensions: the f-string puts [n] in the message. *)
Definition unsupported_dimension (n : nat) : exn :=
  NotImplementedError
    ("Array of dimension " +:+ str_of_nat n
     +:+ " is not supported by this function").

Definition numpy_to_inlined_image (array : Numpy.ndarray)
    (name description image_url : option string)
    (source_image_url : option url_ref) : result ImageInline :=
  if (Numpy.ndim array =? 5)%nat then
    i ← new_Image5D name description image_url source_image_url
          (Numpy.tolist (Numpy.flatten array))
          {| time_values := Numpy.shape_at array 0 |}
          {| pixel_values := Numpy.shape_at array 1 |}
          {| pixel_values := Numpy.shape_at array 2 |}
          {| pixel_values := Numpy.shape_at array 3 |}
          {| channel_values := Numpy.shape_at array 4 |};
    Ok (InlineImage5D i)
  else if (Numpy.ndim array =? 2)%nat then
    i ← new_Image2D name description image_url source_image_url
          (Numpy.tolist (Numpy.flatten array))
          {| pixel_values := Numpy.shape_at array 0 |}
          {| pixel_values := Numpy.shape_at array 1 |};
    Ok (InlineImage2D i)
  else
    Raise (unsupported_dimension (Numpy.ndim array)).

(** [str] is Python's [str] on the values of the dictionary. *)
Definition dict_to_inlined_table {V : Type} (str : V -> string)
    (dictionary : dict (list V)) (name description : option string)
  : result TableAsDict :=
  columns ← comprehension
              (fun k => v ← dict_getitem dictionary k; Ok (k, v))
              (dict_keys dictionary);
  new_TableAsDict str name description columns.

(** ** The analysis contract

    [field_illum.py] subclasses [Analysis] and builds [model.Table] objects;
    neither [Analysis] nor [model] is defined in the files of the repository.
    The definitions of this part follow the specification's sections 3, 4.2
    and 4.3. *)

(** Modelled from the spec: a value a caller binds to a requirement (section
    3: a bulk numeric payload, a scalar or a small structured value), here an
    array, a scalar or a tuple of scalars. *)
Inductive value : Type :=
  | VArray (a : Numpy.ndarray)
  | VScalar (s : Numpy.scalar)
  | VTuple (l : list Numpy.scalar).

(** Modelled from the spec: the type tag of a descriptor; the tags are the
    types [FieldHomogeneityAnalysis.__init__] and the spec name, such as
    [np.ndarray], [int] and [Tuple[float, float]]. *)
Inductive type_tag : Type :=
  | T_ndarray
  | T_int
  | T_float
  | T_bool
  | T_str
  | T_Tuple (first second : type_tag).

(** Modelled from the spec: the Requirement Descriptor of section 3
    ([Analysis] is missing from the sources). *)
Record requirement : Type := {
  req_name : string;
  req_description : string;
  req_data_type : type_tag;
  req_units : option string;
  req_optional : bool;
  req_default : option value
}.

(** Modelled from the spec: the content of a Table, named columns that are
    sequences of values. *)
Inductive cell : Type :=
  | CNum (s : Numpy.scalar)
  | CStr (s : string)
  | CTuple (l : list Numpy.scalar).

Definition frame : Type := dict (list cell).

Module model.

(** Modelled from the spec: the Table artifact appended to the output
    ([model] is missing from the sources); it holds the keyword arguments of
    the call [model.Table(name=..., description=..., table=...)]. *)
Record Table : Type := {
  name : string;
  description : string;
  table : frame
}.

End model.

(** Modelled from the spec: the Analysis Instance of section 3, with the
    descriptors and the bound values of the data and the metadata
    namespaces, and the output sequence. *)
Record analysis : Type := {
  data_requirements : list requirement;
  metadata_requirements : list requirement;
  data_values : gmap string value;
  metadata_values : gmap string value;
  output : list model.Table;
  output_description : string
}.

(** Modelled from the spec: [Analysis.__init__(output_description)], an
    instance with nothing declared, nothing bound and an empty output. *)
Definition Analysis_init (output_description : string) : analysis :=
  {| data_requirements := [];
     metadata_requirements := [];
     data_values := ∅;
     metadata_values := ∅;
     output := [];
     output_description := output_description |}.

(** Modelled from the spec: whether [name] is registered in a namespace. *)
Definition declared (name : string) (reqs : list requirement) : bool :=
  existsb (fun r => String.eqb (req_name r) name) reqs.

(** Modelled from the spec: [add_data_requirement] of section 4.2; it fails
    with [DuplicateRequirementError] when the name is registered already. *)
Definition add_data_requirement (self : analysis) (name description : string)
    (data_type : type_tag) (units : option string) (optional : bool)
    (default : option value) : result analysis :=
  if declared name (data_requirements self) then
    Raise (DuplicateRequirementError name)
  else
    Ok {| data_requirements :=
            data_requirements self ++
            [{| req_name := name;
                req_description := description;
                req_data_type := data_type;
                req_units := units;
                req_optional := optional;
                req_default := default |}];
          metadata_requirements := metadata_requirements self;
          data_values := data_values self;
          metadata_values := metadata_values self;
          output := output self;
          output_description := output_description self |}.

(** Modelled from the spec: [add_metadata_requirement] of section 4.2. *)
Definition add_metadata_requirement (self : analysis)
    (name description : string) (data_type : type_tag)
    (units : option string) (optional : bool) (default : option value)
  : result analysis :=
  if declared name (metadata_requirements self) then
    Raise (DuplicateRequirementError name)
  else
    Ok {| data_requirements := data_requirements self;
          metadata_requirements :=
            metadata_requirements self ++
            [{| req_name := name;
                req_description := description;
                req_data_type := data_type;
                req_units := units;
                req_optional := optional;
                req_default := default |}];
          data_values := data_values self;
          metadata_values := metadata_values self;
          output := output self;
          output_description := output_description self |}.

(** Modelled from the spec: [bind(name, value)] of section 4.2; the name is
    looked up in the data namespace first, and a name declared in neither
    namespace fails with [UnknownRequirementError]. *)
Definition bind (self : analysis) (name : string) (v : value)
  : result analysis :=
  if declared name (data_requirements self) then
    Ok {| data_requirements := data_requirements self;
          metadata_requirements := metadata_requirements self;
          data_values := <[name := v]> (data_values self);
          metadata_values := metadata_values self;
          output := output self;
          output_description := output_description self |}
  else if declared name (metadata_requirements self) then
    Ok {| data_requirements := data_requirements self;
          metadata_requirements := metadata_requirements self;
          data_values := data_values self;
          metadata_values := <[name := v]> (metadata_values self);
          output := output self;
          output_description := output_description self |}
  else Raise (UnknownRequirementError name).

(** Modelled from the spec: a descriptor is unmet when it is not optional
    and has neither a bound value nor a default (section 4.2). *)
Definition unmet (values : gmap string value) (r : requirement) : bool :=
  negb (req_optional r)
  && bool_decide (values !! req_name r = None)
  && bool_decide (req_default r = None).

(** Modelled from the spec: [list_unmet_requirements] of section 4.2 (base
    policy), the names of the unmet descriptors of the data namespace
    followed by those of the metadata namespace. *)
Definition list_unmet_requirements (self : analysis) : list string :=
  map req_name (List.filter (unmet (data_values self))
                            (data_requirements self))
  ++ map req_name (List.filter (unmet (metadata_values self))
                               (metadata_requirements self)).

(** Modelled from the spec: the lookup shared by the two accessors below. *)
Definition get_values (reqs : list requirement) (values : gmap string value)
    (name : string) : result value :=
  match values !! name with
  | Some v => Ok v
  | None =>
      match List.find (fun r => String.eqb (req_name r) name) reqs with
      | Some {| req_default := Some d |} => Ok d
      | _ => Raise (RequirementUnmetError name)
      end
  end.

(** Modelled from the spec: [get_data_values] and [get_metadata_values] of
    section 4.2: the bound value, else the default, else
    [RequirementUnmetError]. *)
Definition get_data_values (self : analysis) (name : string) : result value :=
  get_values (data_requirements self) (data_values self) name.

Definition get_metadata_values (self : analysis) (name : string)
  : result value :=
  get_values (metadata_requirements self) (metadata_values self) name.

(** Modelled from the spec: [self.output.append(t)] on the output sequence
    of section 3, which is append-only. *)
Definition output_append (self : analysis) (t : model.Table) : analysis :=
  {| data_requirements := data_requirements self;
     metadata_requirements := metadata_requirements self;
     data_values := data_values self;
     metadata_values := metadata_values self;
     output := output self ++ [t];
     output_description := output_description self |}.

(** [AnalysisMixin.validate_requirements]: after the log line the body is
    [return True]; it reads nothing of [self]. *)
Definition validate_requirements (self : analysis) : bool := true.

(** ** [microscopemetrics/samples/field_illum.py] *)

(** [np.asarray(v)], which NumPy applies to the argument of [np.max] and
    [np.shape]: a scalar becomes an array with no axis, a tuple an array with
    one axis. *)
Definition asarray (v : value) : Numpy.ndarray :=
  match v with
  | VArray a => a
  | VScalar s =>
      {| Numpy.dtype_of :=
           match s with
           | Numpy.SBool _ => Numpy.dt_bool
           | Numpy.SInt _ => Numpy.dt_int64
           | Numpy.SFloat _ | Numpy.SNaN => Numpy.dt_float64
           end;
         Numpy.shape := [];
         Numpy.item := fun _ => s |}
  | VTuple l =>
      {| Numpy.dtype_of := Numpy.dt_float64;
         Numpy.shape := [length l];
         Numpy.item := fun ix => nth (hd 0 ix) l (Numpy.SFloat 0%Q) |}
  end.

Section FieldIllumination.

(** The numeric bodies of the four table functions use floating-point
    arithmetic, pandas and scikit-image; they are parameters of the
    development.  Each receives the image and what the function has computed
    before the call, and may raise. *)

(** [DataFrame(np.round(img / max_intensity * 100))] *)
Variable norm_intensity_profile : value -> Numpy.scalar -> result frame.

(** The body of [get_max_intensity_region_table] after [np.max]: the
    threshold, [regionprops], the centre of mass and the dictionary. *)
Variable max_region_info : value -> Numpy.scalar -> result frame.

(** The body of [get_intensity_plot] after the shape is unpacked: the four
    pixel lines and the dictionary [fig_data]. *)
Variable fig_data : value -> nat -> nat -> result frame.

(** The body of [get_profile_statistics_table] after [np.max]: the position
    of the maximum, the nine pixels and the dictionary. *)
Variable profiles_statistics_dict : value -> Numpy.scalar -> result frame.

Definition get_norm_intensity_matrix (img : value) : result frame :=
  max_intensity ← Numpy.max (asarray img);
  norm_intensity_profile img max_intensity.

Definition get_max_intensity_region_table (img : value) : result frame :=
  max_intensity ← Numpy.max (asarray img);
  max_region_info img max_intensity.

(** [xmax, ymax = np.shape(img)] raises [ValueError] unless the shape has
    exactly two entries. *)
Definition get_intensity_plot (img : value) : result frame :=
  match Numpy.shape (asarray img) with
  | [xmax; ymax] => fig_data img xmax ymax
  | [] => Raise (ValueError "not enough values to unpack (expected 2, got 0)")
  | [_] => Raise (ValueError "not enough values to unpack (expected 2, got 1)")
  | _ => Raise (ValueError "too many values to unpack (expected 2)")
  end.

Definition get_profile_statistics_table (img : value) : result frame :=
  max_intensity ← Numpy.max (asarray img);
  profiles_statistics_dict img max_intensity.

(** [FieldHomogeneityAnalysis.run].  The result pairs what the call returns
    or raises with the instance as the call leaves it. *)
Definition run (self : analysis) : result bool * analysis :=
  if negb (length (list_unmet_requirements self) =? 0)%nat then
    (Ok false, self)
  else
    match
      image ← get_data_values self "image";
      norm_intensity_data ← get_norm_intensity_matrix image;
      max_intensity_region_table ← get_max_intensity_region_table image;
      intensity_plot_data ← get_intensity_plot image;
      profile_stat_table ← get_profile_statistics_table image;
      Ok (norm_intensity_data, max_intensity_region_table,
          intensity_plot_data, profile_stat_table)
    with
    | Raise e => (Raise e, self)
    | Ok (norm_intensity_data, max_intensity_region_table,
          intensity_plot_data, profile_stat_table) =>
        let self :=
          output_append self
            {| model.name := "max_intensity_region_table";
               model.description := "Dataframe containing coordinates";
               model.table := max_intensity_region_table |} in
        let self :=
          output_append self
            {| model.name := "norm_intensity_data";
               model.description := "Dataframe containing coordinates";
               model.table := norm_intensity_data |} in
        let self :=
          output_append self
            {| model.name := "intensity_plot_data";
               model.description := "Dataframe containing coordinates";
               model.table := intensity_plot_data |} in
        let self :=
          output_append self
            {| model.name := "profile_stat_table";
               model.description := "Dataframe containing coordinates";
               model.table := profile_stat_table |} in
        (Ok true, self)
    end.

End FieldIllumination.

(** [FieldHomogeneityAnalysis.__init__]: the three requirements declared on
    a new [Analysis]. *)
Definition FieldHomogeneityAnalysis_init : result analysis :=
  self ← Ok (Analysis_init "This analysis returns...");
  self ← add_data_requirement self "image"
           "An image with lines as a numpy array" T_ndarray None false None;
  self ← add_metadata_requirement self "bitDepth" "Camera bitDepth"
           (T_Tuple T_float T_float) (Some "bits") true None;
  add_metadata_requirement self "threshold" "Threshold for saturation"
    T_int None true (Some (VScalar (Numpy.SInt 10))).

(** ** Sample inputs *)

(** A 2 x 3 boolean array, true where row and column index agree. *)
Definition sample_mask : Numpy.ndarray :=
  {| Numpy.dtype_of := Numpy.dt_bool;
     Numpy.shape := [2; 3];
     Numpy.item := fun ix =>
       match ix with
       | [i; j] => Numpy.SBool (i =? j)%nat
       | _ => Numpy.SBool false
       end |}.

(** A 2 x 3 array of 8-bit unsigned integers holding 0, 1, ..., 5. *)
Definition sample_gray : Numpy.ndarray :=
  {| Numpy.dtype_of := Numpy.dt_uint8;
     Numpy.shape := [2; 3];
     Numpy.item := fun ix =>
       match ix with
       | [i; j] => Numpy.SInt (Z.of_nat (i * 3 + j))
       | _ => Numpy.SInt 0
       end |}.



(** An array with the three axes 2, 3 and 1. *)
Definition sample_3d : Numpy.ndarray :=
  {| Numpy.dtype_of := Numpy.dt_uint16;
     Numpy.shape := [2; 3; 1];
     Numpy.item := fun _ => Numpy.SInt 7 |}.

(** An array with the five axes (t, z, y, x, c) = (1, 2, 2, 3, 2). *)
Definition sample_5d : Numpy.ndarray :=
  {| Numpy.dtype_of := Numpy.dt_uint16;
     Numpy.shape := [1; 2; 2; 3; 2];
     Numpy.item := fun ix => Numpy.SInt (Z.of_nat (list_sum ix)) |}.

(** [np.zeros((0, 0))]: two axes and no element. *)
Definition empty_image : Numpy.ndarray :=
  {| Numpy.dtype_of := Numpy.dt_float64;
     Numpy.shape := [0; 0];
     Numpy.item := fun _ => Numpy.SFloat 0%Q |}.

(** [np.ones((10, 10))] *)
Definition ones_image : Numpy.ndarray :=
  {| Numpy.dtype_of := Numpy.dt_float64;
     Numpy.shape := [10; 10];
     Numpy.item := fun _ => Numpy.SFloat 1%Q |}.

(** [np.zeros((2, 0), dtype=bool)]: two axes and no element. *)
Definition empty_mask : Numpy.ndarray :=
  {| Numpy.dtype_of := Numpy.dt_bool;
     Numpy.shape := [2; 0];
     Numpy.item := fun _ => Numpy.SBool false |}.


(** A 2 x 2 array of floats with one [nan]. *)
Definition sample_nan : Numpy.ndarray :=
  {| Numpy.dtype_of := Numpy.dt_float64;
     Numpy.shape := [2; 2];
     Numpy.item := fun ix =>
       match ix with
       | [1; 0] => Numpy.SNaN
       | _ => Numpy.SFloat 1
       end |}.

(** [str(z)] for an integer. *)
Definition str_of_Z (z : Z) : string :=
  if (z <? 0)%Z then "-" +:+ str_of_nat (Z.to_nat (- z))
  else str_of_nat (Z.to_nat z).

(** A dictionary whose two columns differ in length. *)
Definition ragged_dict : dict (list Z) :=
  [("nb pixels", [1; 2; 3]%Z); ("max intensity", [255]%Z)].

(** Two distinct classes named alike. *)
Definition first_class : pyclass :=
  {| cls_name := "FieldHomogeneityAnalysis"; cls_id := 1 |}.

Definition second_class : pyclass :=
  {| cls_name := "FieldHomogeneityAnalysis"; cls_id := 2 |}.

(** The instance [FieldHomogeneityAnalysis()] builds; see
    [FieldHomogeneityAnalysis_init_fresh]. *)
Definition fresh_analysis : analysis :=
  {| data_requirements :=
       [{| req_name := "image";
           req_description := "An image with lines as a numpy array";
           req_data_type := T_ndarray;
           req_units := None;
           req_optional := false;
           req_default := None |}];
     metadata_requirements :=
       [{| req_name := "bitDepth";
           req_description := "Camera bitDepth";
           req_data_type := T_Tuple T_float T_float;
           req_units := Some "bits";
           req_optional := true;
           req_default := None |};
        {| req_name := "threshold";
           req_description := "Threshold for saturation";
           req_data_type := T_int;
           req_units := None;
           req_optional := true;
           req_default := Some (VScalar (Numpy.SInt 10)) |}];
     data_values := ∅;
     metadata_values := ∅;
     output := [];
     output_description := "This analysis returns..." |}.

(** [fresh_analysis] with ["image"] bound to [img]. *)
Definition bound_analysis (img : Numpy.ndarray) : analysis :=
  {| data_requirements := data_requirements fresh_analysis;
     metadata_requirements := metadata_requirements fresh_analysis;
     data_values := <["image" := VArray img]> ∅;
     metadata_values := ∅;
     output := [];
     output_description := output_description fresh_analysis |}.

(** Stand-ins for the numeric parameters of [run]: each returns a table with
    the column names of the function it stands for and no row. *)
Definition sample_norm (img : value) (max_intensity : Numpy.scalar)
  : result frame :=
  Ok [("0", [])].

Definition sample_region (img : value) (max_intensity : Numpy.scalar)
  : result frame :=
  Ok [("nb pixels", []); ("center of mass", []);
      ("max intensity", [CNum max_intensity])].

Definition sample_fig (img : value) (xmax ymax : nat) : result frame :=
  Ok [("x_axis_V_seg", []); ("y_axis_V_seg", []);
      ("x_axis_H_seg", []); ("y_axis_H_seg", []);
      ("x_axis_diagUD", []); ("y_axis_diagUD", []);
      ("x_axis_diagDU", []); ("y_axis_diagDU", [])].

Definition sample_stats (img : value) (max_intensity : Numpy.scalar)
  : result frame :=
  Ok [("location", []); ("intensity", []);
      ("intensity relative to max", [])].

(** Stand-ins that raise, each with a message of its own. *)
Definition failing_norm (img : value) (max_intensity : Numpy.scalar)
  : result frame :=
  Raise (ValueError "norm_intensity_data").

Definition failing_region (img : value) (max_intensity : Numpy.scalar)
  : result frame :=
  Raise (ValueError "max_intensity_region_table").

(** ** The intensity profiles and the profile statistics of [field_illum.py]

    The functions of this part index the image.  A call that NumPy or Python
    ends with an [IndexError], or with the [ValueError] of a failed tuple
    unpacking, returns [None]. *)

(** Python's [round(m / 2)] for an integer [m]: the float [m / 2] is exact
    (for [m] below 2^53 in absolute value), and [round] sends a tie to the
    even neighbour. *)
Definition round_half (m : Z) : Z :=
  if Z.even m then (m / 2)%Z
  else if Z.even (m / 2) then (m / 2)%Z
  else (m / 2 + 1)%Z.

(** [np.arange(start, stop, 1)] on integers. *)
Definition arange (start stop : Z) : list Z :=
  map (fun i => (start + Z.of_nat i)%Z) (seq 0 (Z.to_nat (stop - start))).

(** [get_x_axis]: only the length of [y_axis] is read. *)
Definition get_x_axis {A : Type} (y_axis : list A) : list Z :=
  let nb_pixels := Z.of_nat (length y_axis) in
  let x_axis :=
    arange (round_half (- nb_pixels)) (round_half (nb_pixels + 2)) in
  List.filter (fun x => negb (x =? 0)%Z) x_axis.

(** An index [i] into an axis of [n] entries: a negative index counts from
    the end, and an index outside [-n, n) is an [IndexError]. *)
Definition axis_index (n : nat) (i : Z) : option nat :=
  if ((0 <=? i) && (i <? Z.of_nat n))%Z then Some (Z.to_nat i)
  else if ((- Z.of_nat n <=? i) && (i <? 0))%Z
       then Some (Z.to_nat (Z.of_nat n + i))
       else None.

(** [img[r, c]] on an array with two axes. *)
Definition getitem2 (img : Numpy.ndarray) (r c : Z) : option Numpy.scalar :=
  i ← axis_index (Numpy.shape_at img 0) r;
  j ← axis_index (Numpy.shape_at img 1) c;
  Some (Numpy.item img [i; j]).

Section IntensityProfiles.

(** [skimage.draw.line(r0, c0, r1, c1)]: the pixels of the line, each a row
    and a column; scikit-image is a dependency and the function is a
    parameter. *)
Variable draw_line : Z -> Z -> Z -> Z -> list (Z * Z).

(** [get_pixel_values_of_line]: [img[rr, cc]] for the rows [rr] and the
    columns [cc] of the line. *)
Definition get_pixel_values_of_line (img : Numpy.ndarray) (x0 y0 xf yf : Z)
  : option (list Numpy.scalar) :=
  mapM (fun rc => getitem2 img rc.1 rc.2) (draw_line x0 y0 xf yf).

(** The body of [get_intensity_plot] once [np.shape(img)] is unpacked into
    [xmax] and [ymax]: the four lines and the dictionary [fig_data], whose
    keys are set in this order. *)
Definition intensity_plot_lines (img : Numpy.ndarray) (xmax ymax : nat)
  : option frame :=
  let xmax := (Z.of_nat xmax - 1)%Z in
  let ymax := (Z.of_nat ymax - 1)%Z in
  let xmid := round_half xmax in
  let ymid := round_half ymax in
  V_seg ← get_pixel_values_of_line img 0 ymid xmax ymid;
  H_seg ← get_pixel_values_of_line img xmid 0 xmid ymax;
  diagUD ← get_pixel_values_of_line img 0 0 xmax ymax;
  diagDU ← get_pixel_values_of_line img xmax 0 0 ymax;
  let ints := map (fun x => CNum (Numpy.SInt x)) in
  Some [("x_axis_V_seg", ints (get_x_axis V_seg));
        ("y_axis_V_seg", map CNum V_seg);
        ("x_axis_H_seg", ints (get_x_axis H_seg));
        ("y_axis_H_seg", map CNum H_seg);
        ("x_axis_diagUD", ints (get_x_axis diagUD));
        ("y_axis_diagUD", map CNum diagUD);
        ("x_axis_diagDU", ints (get_x_axis diagDU));
        ("y_axis_diagDU", map CNum diagDU)].

End IntensityProfiles.

(** [a == b] on two elements: equality of the numeric values; [nan] is
    equal to nothing, itself included. *)
Definition scalar_eqb (s1 s2 : Numpy.scalar) : bool :=
  match Numpy.scalar_value s1, Numpy.scalar_value s2 with
  | Some v1, Some v2 => Qeq_bool v1 v2
  | _, _ => false
  end.

(** The numeric values of two elements compared; a comparison with [nan]
    does not hold. *)
Definition value_eq (s1 s2 : Numpy.scalar) : Prop :=
  match Numpy.scalar_value s1, Numpy.scalar_value s2 with
  | Some v1, Some v2 => (v1 == v2)%Q
  | _, _ => False
  end.

Definition value_le (s1 s2 : Numpy.scalar) : Prop :=
  match Numpy.scalar_value s1, Numpy.scalar_value s2 with
  | Some v1, Some v2 => (v1 <= v2)%Q
  | _, _ => False
  end.

(** [xx_max, yy_max = np.where(img == max_intensity)] followed by
    [xx_max[0]] and [yy_max[0]]: the first position, in row-major order, of
    an element equal to [max_intensity].  The unpacking needs two axes and
    the subscript needs one such element. *)
Definition max_found_at (img : Numpy.ndarray) (max_intensity : Numpy.scalar)
  : option (nat * nat) :=
  match
    List.find (fun ix => scalar_eqb (Numpy.item img ix) max_intensity)
              (Numpy.indices (Numpy.shape img))
  with
  | Some [x; y] => Some (x, y)
  | _ => None
  end.

(** [np.meshgrid(x, y)] read in row-major order: entry [3 * i + j] pairs
    [xx[i, j] = x[j]] with [yy[i, j] = y[i]]. *)
Definition meshgrid (x y : list Z) : list (Z * Z) :=
  flat_map (fun yi => map (fun xj => (xj, yi)) x) y.

Section ProfileStatistics.

(** The floating-point steps are parameters: [np.around(v, 2)] on one
    element, the division [v / max_intensity], and the text of a NumPy
    integer inside the f-string. *)
Variable around2 : Numpy.scalar -> Numpy.scalar.
Variable divide : Numpy.scalar -> Numpy.scalar -> Numpy.scalar.
Variable repr_index : nat -> string.

(** The body of [get_profile_statistics_table] after [np.max]. *)
Definition profile_statistics_rows (img : Numpy.ndarray)
    (max_intensity : Numpy.scalar) : option frame :=
  found ← max_found_at img max_intensity;
  let max_found_at :=
    "[" +:+ repr_index found.1 +:+ ", " +:+ repr_index found.2 +:+ "]" in
  pixels ← mapM (fun xy => getitem2 img xy.1 xy.2)
              (meshgrid
                 [0; Z.of_nat (Numpy.shape_at img 0 / 2); -1]%Z
                 [0; Z.of_nat (Numpy.shape_at img 1 / 2); -1]%Z);
  let max_intensities := map around2 pixels in
  let max_intensities_relative :=
    map (fun v => around2 (divide v max_intensity)) max_intensities in
  let max_intensities := <[4 := max_intensity]> max_intensities in
  let max_intensities_relative :=
    <[4 := Numpy.SFloat 1]> max_intensities_relative in
  Some [("location",
         map CStr
           ["top-left corner";
            "upper-middle pixel";
            "top-right corner";
            "left-middle pixel";
            "maximum found at " +:+ max_found_at;
            "right-middle pixel";
            "bottom-left corner";
            "bottom-middle pixel";
            "bottom-right corner"]);
        ("intensity", map CNum max_intensities);
        ("intensity relative to max", map CNum max_intensities_relative)].

End ProfileStatistics.

(** [np.ravel_multi_index]: the position of the multi-index [ix] in the
    row-major order of the shape [dims], computed from left to right
    starting from [acc]. *)
Fixpoint ravel_index (acc : nat) (dims ix : list nat) : nat :=
  match dims, ix with
  | n :: dims', i :: ix' => ravel_index (acc * n + i) dims' ix'
  | _, _ => acc
  end.

(** ** Sequences of registrations *)

(** The class definitions [@register_image_analysis class ...] of the
    modules loaded one after the other. *)
Definition register_image_analyses (classes : list pyclass) (g : registries)
  : registries :=
  fold_left (fun g cls => (register_image_analysis cls g).2) classes g.

(** More sample inputs. *)

(** The line through its two end points only. *)
Definition sample_line (r0 c0 r1 c1 : Z) : list (Z * Z) :=
  [(r0, c0); (r1, c1)].

(** A 3 x 4 image holding 0, 1, ..., 11 row after row. *)
Definition sample_ramp : Numpy.ndarray :=
  {| Numpy.dtype_of := Numpy.dt_uint8;
     Numpy.shape := [3; 4];
     Numpy.item := fun ix =>
       match ix with
       | [i; j] => Numpy.SInt (Z.of_nat (i * 4 + j))
       | _ => Numpy.SInt 0
       end |}.

(** A 2 x 2 image whose largest value 9 is held twice. *)
Definition sample_two_peaks : Numpy.ndarray :=
  {| Numpy.dtype_of := Numpy.dt_uint8;
     Numpy.shape := [2; 2];
     Numpy.item := fun ix =>
       match ix with
       | [0; 1] | [1; 0] => Numpy.SInt 9
       | _ => Numpy.SInt 3
       end |}.

(** A third class, named differently from [first_class]. *)
Definition third_class : pyclass :=
  {| cls_name := "ArgolightAnalysis"; cls_id := 3 |}.

(** * Properties *)

(** ** Row-major order *)

Section RowMajor.

Context {A : Type}.

Lemma flat_map_seq_length (f : nat -> list A) (c s n : nat) :
  (forall i, length (f i) = c) ->
  length (flat_map f (seq s n)) = n * c.
Proof.
  intros Hf. revert s.
  induction n as [|n IH]; intros s; simpl; [reflexivity|].
  rewrite length_app, Hf, IH. reflexivity.
Qed.

(** Blocks of equal length [c] laid end to end: entry [i * c + j] of the
    whole is entry [j] of block [i]. *)
Lemma flat_map_seq_lookup (f : nat -> list A) (c s n i j : nat) :
  (forall k, length (f k) = c) ->
  i < n -> j < c ->
  flat_map f (seq s n) !! (i * c + j) = f (s + i) !! j.
Proof.
  intros Hf. revert s i.
  induction n as [|n IH]; intros s i Hi Hj; [lia|].
  simpl. destruct i as [|i].
  - simpl. rewrite Nat.add_0_r.
    apply lookup_app_l. rewrite Hf. exact Hj.
  - rewrite lookup_app_r by (rewrite Hf; simpl; lia).
    rewrite Hf.
    replace (S i * c + j - c) with (i * c + j) by (simpl; lia).
    rewrite IH by lia. f_equal. f_equal. lia.
Qed.

Lemma map_nth_seq (l : list A) (d : A) :
  map (fun k => nth k l d) (seq 0 (length l)) = l.
Proof.
  induction l as [|x l IH]; simpl; [reflexivity|].
  f_equal. rewrite <- seq_shift, map_map. exact IH.
Qed.

End RowMajor.

Lemma length_indices (dims : list nat) :
  length (Numpy.indices dims) = Numpy.prod dims.
Proof.
  induction dims as [|n dims IH]; simpl; [reflexivity|].
  rewrite (flat_map_seq_length _ (Numpy.prod dims)).
  - reflexivity.
  - intros i. rewrite length_map. exact IH.
Qed.

(** The list a conversion stores: the elements in row-major order. *)
Lemma tolist_flatten (a : Numpy.ndarray) :
  Numpy.tolist (Numpy.flatten a)
  = map (Numpy.item a) (Numpy.indices (Numpy.shape a)).
Proof.
  unfold Numpy.tolist, Numpy.flatten, Numpy.shape_at. simpl.
  set (idx := Numpy.indices (Numpy.shape a)).
  transitivity (map (Numpy.item a)
                  (map (fun k => nth k idx []) (seq 0 (length idx)))).
  - rewrite map_map. reflexivity.
  - f_equal. apply map_nth_seq.
Qed.

Lemma length_tolist_flatten (a : Numpy.ndarray) :
  length (Numpy.tolist (Numpy.flatten a)) = Numpy.size a.
Proof.
  rewrite tolist_flatten, length_map. apply length_indices.
Qed.

(** Entry [i * prod dims + j] of the indices of shape [n :: dims] is [i]
    followed by entry [j] of the indices of shape [dims]. *)
Lemma indices_cons_lookup (n : nat) (dims : list nat) (i j : nat) :
  i < n -> j < Numpy.prod dims ->
  Numpy.indices (n :: dims) !! (i * Numpy.prod dims + j)
  = cons i <$> Numpy.indices dims !! j.
Proof.
  intros Hi Hj.
  change (Numpy.indices (n :: dims))
    with (flat_map (fun i => map (cons i) (Numpy.indices dims)) (seq 0 n)).
  rewrite (flat_map_seq_lookup _ (Numpy.prod dims)); try assumption.
  - simpl. apply list_lookup_fmap.
  - intros k. rewrite length_map. apply length_indices.
Qed.

Lemma indices_1d_lookup (cols j : nat) :
  j < cols -> Numpy.indices [cols] !! j = Some [j].
Proof.
  intros Hj.
  pose proof (indices_cons_lookup cols [] j 0 Hj) as H.
  simpl Numpy.prod in H. rewrite Nat.mul_1_r, Nat.add_0_r in H.
  rewrite H by lia. reflexivity.
Qed.

Lemma indices_2d_lookup (rows cols i j : nat) :
  i < rows -> j < cols ->
  Numpy.indices [rows; cols] !! (i * cols + j) = Some [i; j].
Proof.
  intros Hi Hj.
  pose proof (indices_cons_lookup rows [cols] i j Hi) as H.
  simpl Numpy.prod in H. rewrite Nat.mul_1_r in H.
  rewrite H by exact Hj.
  rewrite indices_1d_lookup by exact Hj. reflexivity.
Qed.

Lemma shape_2d (a : Numpy.ndarray) :
  Numpy.ndim a = 2 ->
  Numpy.shape a = [Numpy.shape_at a 0; Numpy.shape_at a 1].
Proof.
  unfold Numpy.ndim, Numpy.shape_at.
  destruct (Numpy.shape a) as [|r [|c [|? ?]]]; simpl; intros H;
    try discriminate; reflexivity.
Qed.

(** ** Strings *)

Lemma string_length_app (x s : string) :
  String.length (x +:+ s) = String.length x + String.length s.
Proof. induction x as [|c x IH]; simpl; [reflexivity | now rewrite IH]. Qed.

Lemma string_app_inj_suffix (x y s : string) :
  x +:+ s = y +:+ s -> x = y.
Proof.
  revert y. induction x as [|c x IH]; intros [|d y] H; simpl in H.
  - reflexivity.
  - apply (f_equal String.length) in H.
    rewrite !string_length_app in H. simpl in H. lia.
  - apply (f_equal String.length) in H.
    rewrite !string_length_app in H. simpl in H. lia.
  - injection H as -> H. f_equal. apply IH. exact H.
Qed.

Lemma str_of_nat_inj (n m : nat) : str_of_nat n = str_of_nat m -> n = m.
Proof.
  unfold str_of_nat. intros H.
  apply Unsigned.to_uint_inj.
  apply (f_equal NilEmpty.uint_of_string) in H.
  rewrite !NilEmpty.usu in H. now injection H.
Qed.

(** ** The conversions of arrays *)

Lemma unsupported_dimension_inj (n m : nat) :
  unsupported_dimension n = unsupported_dimension m -> n = m.
Proof.
  unfold unsupported_dimension. intros H. injection H as H.
  apply String.app_inj in H.
  apply string_app_inj_suffix in H.
  apply str_of_nat_inj. exact H.
Qed.

Lemma tolist_flatten_nonempty (A : Numpy.ndarray) :
  0 < Numpy.size A ->
  exists (s : Numpy.scalar) (rest : list Numpy.scalar),
    Numpy.tolist (Numpy.flatten A) = s :: rest.
Proof.
  intros Hsize. pose proof (length_tolist_flatten A) as Hlen.
  destruct (Numpy.tolist (Numpy.flatten A)) as [|s rest];
    [simpl in Hlen; lia | eauto].
Qed.

Lemma tolist_flatten_empty (A : Numpy.ndarray) :
  Numpy.size A = 0 -> Numpy.tolist (Numpy.flatten A) = [].
Proof.
  intros Hsize. pose proof (length_tolist_flatten A) as Hlen.
  rewrite Hsize in Hlen.
  destruct (Numpy.tolist (Numpy.flatten A)); [reflexivity | discriminate].
Qed.

Lemma size_2d (A : Numpy.ndarray) :
  Numpy.ndim A = 2 ->
  Numpy.size A = Numpy.shape_at A 0 * Numpy.shape_at A 1.
Proof.
  intros Hd. unfold Numpy.size. rewrite (shape_2d A Hd) at 1. simpl. lia.
Qed.

(** A boolean array of two dimensions reaches the constructor with its own
    elements. *)
Lemma mask_of_bool (A : Numpy.ndarray)
    (name description image_url : option string)
    (source_image_url : option url_ref) :
  Numpy.ndim A = 2 -> Numpy.dtype_of A = Numpy.dt_bool ->
  numpy_to_inlined_mask A name description image_url source_image_url
  = new_ImageMask name description image_url source_image_url
      (Numpy.tolist (Numpy.flatten A))
      {| pixel_values := Numpy.shape_at A 0 |}
      {| pixel_values := Numpy.shape_at A 1 |}.
Proof.
  intros Hd Ht. unfold numpy_to_inlined_mask.
  rewrite Hd, Ht. simpl. rewrite Ht. reflexivity.
Qed.

(** An array of 8-bit unsigned integers reaches it with the truth values of
    its elements. *)
Lemma mask_of_uint8 (A : Numpy.ndarray)
    (name description image_url : option string)
    (source_image_url : option url_ref) :
  Numpy.ndim A = 2 -> Numpy.dtype_of A = Numpy.dt_uint8 ->
  numpy_to_inlined_mask A name description image_url source_image_url
  = new_ImageMask name description image_url source_image_url
      (map (fun s => Numpy.SBool (Numpy.truth s))
           (Numpy.tolist (Numpy.flatten A)))
      {| pixel_values := Numpy.shape_at A 0 |}
      {| pixel_values := Numpy.shape_at A 1 |}.
Proof.
  intros Hd Ht. unfold numpy_to_inlined_mask.
  rewrite Hd, Ht. simpl. f_equal.
  rewrite !tolist_flatten. simpl. rewrite map_map. reflexivity.
Qed.

Lemma new_ImageMask_Ok (name description : option string) (url : string)
    (source_image_url : option url_ref) (data : list Numpy.scalar)
    (y x : PixelSeries) :
  data <> [] ->
  new_ImageMask name description (Some url) source_image_url data y x
  = Ok {| mask_name := name;
          mask_description := description;
          mask_image_url := url;
          mask_source_image_url := url_list source_image_url;
          mask_data := data;
          mask_y := y;
          mask_x := x |}.
Proof. intros H. destruct data; [congruence | reflexivity]. Qed.

(** What a returned mask tells about the call of the constructor. *)
Lemma new_ImageMask_inv (name description image_url : option string)
    (source_image_url : option url_ref) (data : list Numpy.scalar)
    (y x : PixelSeries) (m : ImageMask) :
  new_ImageMask name description image_url source_image_url data y x
  = Ok m ->
  image_url = Some (mask_image_url m)
  /\ data <> []
  /\ m = {| mask_name := name;
            mask_description := description;
            mask_image_url := mask_image_url m;
            mask_source_image_url := url_list source_image_url;
            mask_data := data;
            mask_y := y;
            mask_x := x |}.
Proof.
  unfold new_ImageMask.
  destruct image_url as [url|]; [|discriminate].
  destruct data as [|s rest]; [discriminate|].
  intros [= <-]. simpl. repeat split. discriminate.
Qed.

Lemma mask_of_other_dtype (A : Numpy.ndarray)
    (name description image_url : option string)
    (source_image_url : option url_ref) :
  Numpy.ndim A = 2 ->
  Numpy.dtype_of A <> Numpy.dt_bool -> Numpy.dtype_of A <> Numpy.dt_uint8 ->
  numpy_to_inlined_mask A name description image_url source_image_url
  = Raise (ValueError "Input array should be of type bool").
Proof.
  intros Hd Hb Hu. unfold numpy_to_inlined_mask. rewrite Hd.
  destruct (Numpy.dtype_of A) eqn:E; simpl; rewrite ?E;
    try reflexivity; congruence.
Qed.

(** The truth value of an element: true unless its numeric value is 0. *)
Lemma truth_nonzero (s : Numpy.scalar) :
  Numpy.truth s = true
  <-> forall q : Q, Numpy.scalar_value s = Some q -> ~ (q == 0)%Q.
Proof.
  destruct s as [[|]|z|q|]; simpl.
  - split; [intros _ q [= <-] H; discriminate H | reflexivity].
  - split; [discriminate|].
    intros H. exfalso. apply (H 0%Q); reflexivity.
  - rewrite negb_true_iff, Z.eqb_neq. split.
    + intros Hz q [= <-]. unfold Qeq, inject_Z. simpl. lia.
    + intros H Hz. apply (H (inject_Z z) eq_refl). rewrite Hz. reflexivity.
  - rewrite negb_true_iff, <- not_true_iff_false, Qeq_bool_iff. split.
    + intros Hq q' [= <-]. exact Hq.
    + intros H. apply H. reflexivity.
  - split; [discriminate | reflexivity].
Qed.

Lemma shape_5d (a : Numpy.ndarray) :
  Numpy.ndim a = 5 ->
  Numpy.shape a
  = [Numpy.shape_at a 0; Numpy.shape_at a 1; Numpy.shape_at a 2;
     Numpy.shape_at a 3; Numpy.shape_at a 4].
Proof.
  unfold Numpy.ndim, Numpy.shape_at.
  destruct (Numpy.shape a) as [|t [|z [|y [|x [|c [|? ?]]]]]]; simpl;
    intros H; try discriminate; reflexivity.
Qed.

(** C2, as the code has it: for a two-dimensional boolean array [A] with
    at least one element, and when an [image_url] is supplied, the mask
    conversion returns a mask whose [y] is the number of rows and whose [x]
    is the number of columns of [A]; its data are the elements of [A] in
    row-major order, rows times columns of them, and entry
    [i * columns + j] of the data is the element of [A] at row [i] and column
    [j]. *)
Theorem mask_of_boolean_array (A : Numpy.ndarray)
    (name description : option string) (image_url : string)
    (source_image_url : option url_ref) :
  Numpy.ndim A = 2 ->
  Numpy.dtype_of A = Numpy.dt_bool ->
  0 < Numpy.size A ->
  exists m : ImageMask,
    numpy_to_inlined_mask A name description (Some image_url)
      source_image_url
    = Ok m
    /\ pixel_values (mask_y m) = Numpy.shape_at A 0
    /\ pixel_values (mask_x m) = Numpy.shape_at A 1
    /\ mask_data m = map (Numpy.item A) (Numpy.indices (Numpy.shape A))
    /\ length (mask_data m) = Numpy.shape_at A 0 * Numpy.shape_at A 1
    /\ forall i j : nat,
         i < Numpy.shape_at A 0 -> j < Numpy.shape_at A 1 ->
         mask_data m !! (i * Numpy.shape_at A 1 + j)
         = Some (Numpy.item A [i; j]).
Proof.
  intros Hd Ht Hsize. eexists.
  split.
  { rewrite mask_of_bool by assumption.
    apply new_ImageMask_Ok.
    destruct (tolist_flatten_nonempty A Hsize) as (s & rest & ->).
    discriminate. }
  simpl. rewrite tolist_flatten.
  repeat split.
  - rewrite length_map, length_indices, (shape_2d A Hd). simpl. lia.
  - intros i j Hi Hj.
    rewrite list_lookup_fmap, (shape_2d A Hd) at 1.
    rewrite indices_2d_lookup by assumption. reflexivity.
Qed.

Lemma mask_of_boolean_array_witness :
  Numpy.ndim sample_mask = 2
  /\ Numpy.dtype_of sample_mask = Numpy.dt_bool
  /\ 0 < Numpy.size sample_mask
  /\ exists m : ImageMask,
       numpy_to_inlined_mask sample_mask (Some "mask") None
         (Some "mask_0.tif") None = Ok m
       /\ pixel_values (mask_y m) = 2
       /\ pixel_values (mask_x m) = 3
       /\ mask_data m
          = [Numpy.SBool true; Numpy.SBool false; Numpy.SBool false;
             Numpy.SBool false; Numpy.SBool true; Numpy.SBool false]
       /\ mask_data m !! (1 * 3 + 1) = Some (Numpy.SBool true).
Proof.
  assert (0 < Numpy.size sample_mask) as Hsize by (vm_compute; lia).
  split; [reflexivity|]. split; [reflexivity|]. split; [exact Hsize|].
  destruct (mask_of_boolean_array sample_mask (Some "mask") None
              "mask_0.tif" None eq_refl eq_refl Hsize)
    as (m & Hm & Hy & Hx & Hdata & _ & Hat).
  exists m. split; [exact Hm|]. split; [exact Hy|]. split; [exact Hx|].
  split; [exact Hdata|].
  apply (Hat 1 1); unfold Numpy.shape_at; simpl; lia.
Defined.

(** A two-dimensional boolean array is refused when no [image_url] is given,
    which is the default of the conversion, and when it has no element: the
    constructor of the mask raises. *)
Lemma mask_of_boolean_array_refused :
  Numpy.ndim sample_mask = 2
  /\ Numpy.dtype_of sample_mask = Numpy.dt_bool
  /\ numpy_to_inlined_mask sample_mask None None None None
     = Raise (ValueError "image_url must be supplied")
  /\ Numpy.ndim empty_mask = 2
  /\ Numpy.dtype_of empty_mask = Numpy.dt_bool
  /\ numpy_to_inlined_mask empty_mask None None (Some "mask_0.tif") None
     = Raise (ValueError "data must be supplied").
Proof. repeat split. Qed.

(** C3: for an array whose number of dimensions is neither 2 nor 5 the
    image conversion raises the [NotImplementedError] whose message names
    that number of dimensions, so it returns no image; the number of
    dimensions can be read back from the error, since two different numbers
    give two different errors. *)
Theorem image_of_unsupported_dimension (A : Numpy.ndarray)
    (name description image_url : option string)
    (source_image_url : option url_ref) :
  Numpy.ndim A <> 2 ->
  Numpy.ndim A <> 5 ->
  numpy_to_inlined_image A name description image_url source_image_url
  = Raise (unsupported_dimension (Numpy.ndim A))
  /\ (forall i : ImageInline,
        numpy_to_inlined_image A name description image_url source_image_url
        <> Ok i)
  /\ (forall n : nat,
        unsupported_dimension n = unsupported_dimension (Numpy.ndim A) ->
        n = Numpy.ndim A).
Proof.
  intros H2 H5.
  assert (numpy_to_inlined_image A name description image_url
            source_image_url
          = Raise (unsupported_dimension (Numpy.ndim A))) as E.
  { unfold numpy_to_inlined_image.
    destruct (Nat.eqb_spec (Numpy.ndim A) 5) as [e|_]; [congruence|].
    destruct (Nat.eqb_spec (Numpy.ndim A) 2) as [e|_]; [congruence|].
    reflexivity. }
  split; [exact E|]. split.
  - intros i. rewrite E. discriminate.
  - intros n. apply unsupported_dimension_inj.
Qed.

Lemma image_of_unsupported_dimension_witness :
  Numpy.ndim sample_3d <> 2
  /\ Numpy.ndim sample_3d <> 5
  /\ numpy_to_inlined_image sample_3d None None None None
     = Raise (NotImplementedError
                "Array of dimension 3 is not supported by this function").
Proof.
  assert (Numpy.ndim sample_3d <> 2) as H2 by (vm_compute; lia).
  assert (Numpy.ndim sample_3d <> 5) as H5 by (vm_compute; lia).
  split; [exact H2|]. split; [exact H5|].
  exact (proj1 (image_of_unsupported_dimension sample_3d None None None None
                  H2 H5)).
Defined.

Lemma new_Image2D_Ok (name description : option string) (url : string)
    (source_image_url : option url_ref) (data : list Numpy.scalar)
    (y x : PixelSeries) :
  data <> [] ->
  new_Image2D name description (Some url) source_image_url data y x
  = Ok {| img2_name := name;
          img2_description := description;
          img2_image_url := url;
          img2_source_image_url := url_list source_image_url;
          img2_data := map py_float data;
          img2_y := y;
          img2_x := x |}.
Proof. intros H. destruct data; [congruence | reflexivity]. Qed.









(** C10, as the code has it: for a two-dimensional array of 8-bit unsigned
    integers with at least one element, whatever their values, and when an
    [image_url] is supplied, the mask conversion returns a mask; its data
    have the length of the row-major flattening of the input, and entry [i]
    is the boolean that is true exactly when entry [i] of that flattening is
    not zero.  Each of the three registration decorators returns the class
    it is given. *)
Theorem mask_of_uint8_array_and_decorators :
  (forall (A : Numpy.ndarray) (name description : option string)
          (image_url : string) (source_image_url : option url_ref),
     Numpy.ndim A = 2 ->
     Numpy.dtype_of A = Numpy.dt_uint8 ->
     0 < Numpy.size A ->
     exists m : ImageMask,
       numpy_to_inlined_mask A name description (Some image_url)
         source_image_url
       = Ok m
       /\ length (mask_data m) = length (Numpy.tolist (Numpy.flatten A))
       /\ forall (i : nat) (s : Numpy.scalar),
            Numpy.tolist (Numpy.flatten A) !! i = Some s ->
            exists b : bool,
              mask_data m !! i = Some (Numpy.SBool b)
              /\ (b = true
                  <-> forall q : Q,
                        Numpy.scalar_value s = Some q -> ~ (q == 0)%Q))
  /\ (forall (cls : pyclass) (g : registries),
        (register_image_analysis cls g).1 = cls
        /\ (register_dataset_analysis cls g).1 = cls
        /\ (register_progression_analysis cls g).1 = cls).
Proof.
  split.
  - intros A name description image_url source_image_url Hd Ht Hsize.
    eexists. split.
    { rewrite mask_of_uint8 by assumption. apply new_ImageMask_Ok.
      destruct (tolist_flatten_nonempty A Hsize) as (s & rest & ->).
      discriminate. }
    simpl. split; [apply length_map|].
    intros i s Hi. exists (Numpy.truth s).
    rewrite list_lookup_fmap, Hi. split; [reflexivity|].
    apply truth_nonzero.
  - intros cls g. repeat split.
Qed.

Lemma mask_of_uint8_array_and_decorators_witness :
  Numpy.ndim sample_gray = 2
  /\ Numpy.dtype_of sample_gray = Numpy.dt_uint8
  /\ 0 < Numpy.size sample_gray
  /\ Numpy.tolist (Numpy.flatten sample_gray)
     = [Numpy.SInt 0; Numpy.SInt 1; Numpy.SInt 2;
        Numpy.SInt 3; Numpy.SInt 4; Numpy.SInt 5]
  /\ exists m : ImageMask,
       numpy_to_inlined_mask sample_gray None None (Some "gray.tif") None
       = Ok m
       /\ length (mask_data m) = 6
       /\ exists b : bool,
            mask_data m !! 5 = Some (Numpy.SBool b)
            /\ (b = true
                <-> forall q : Q, Some (inject_Z 5) = Some q -> ~ (q == 0)%Q).
Proof.
  assert (0 < Numpy.size sample_gray) as Hsize by (vm_compute; lia).
  split; [reflexivity|]. split; [reflexivity|]. split; [exact Hsize|].
  split; [reflexivity|].
  destruct (proj1 mask_of_uint8_array_and_decorators sample_gray
              None None "gray.tif" None eq_refl eq_refl Hsize)
    as (m & Hm & Hlen & Hat).
  exists m. split; [exact Hm|]. split; [exact Hlen|].
  exact (Hat 5 (Numpy.SInt 5) eq_refl).
Defined.

(** A two-dimensional array of 8-bit unsigned integers is refused when no
    [image_url] is given, which is the default of the conversion. *)
Lemma mask_of_uint8_array_refused :
  Numpy.ndim sample_gray = 2
  /\ Numpy.dtype_of sample_gray = Numpy.dt_uint8
  /\ numpy_to_inlined_mask sample_gray None None None None
     = Raise (ValueError "image_url must be supplied").
Proof. repeat split. Qed.

(** ** Dictionaries and tables *)

Section Dictionaries.

Context {V : Type}.

Lemma dict_getitem_app_skip (pre d : dict V) (k : string) :
  k ∉ dict_keys pre ->
  dict_getitem (pre ++ d) k = dict_getitem d k.
Proof.
  induction pre as [|[k' v'] pre IH]; simpl; intros Hk; [reflexivity|].
  destruct (String.eqb_spec k' k) as [->|_].
  - exfalso. apply Hk. left.
  - apply IH. intros Hin. apply Hk. right. exact Hin.
Qed.

Lemma dict_getitem_here (d : dict V) (k : string) (v : V) :
  dict_getitem ((k, v) :: d) k = Ok v.
Proof. simpl. rewrite String.eqb_refl. reflexivity. Qed.

(** Reading every key of the entries [d] back from a dictionary that holds
    them after the entries [pre] gives the entries of [d], in order. *)
Lemma comprehension_columns (pre d : dict V) :
  dict_wf (pre ++ d) ->
  comprehension
    (fun k => v ← dict_getitem (pre ++ d) k; Ok (k, v))
    (dict_keys d)
  = Ok d.
Proof.
  revert pre. induction d as [|[k v] d IH]; intros pre Hwf; simpl;
    [reflexivity|].
  assert (k ∉ dict_keys pre) as Hk.
  { unfold dict_wf in Hwf. rewrite map_app in Hwf. simpl in Hwf.
    apply NoDup_app in Hwf as (_ & Hdisj & _).
    intros Hin. apply (Hdisj k Hin). left. }
  rewrite dict_getitem_app_skip by exact Hk.
  rewrite dict_getitem_here. simpl.
  replace (pre ++ (k, v) :: d) with ((pre ++ [(k, v)]) ++ d)
    by (rewrite <- app_assoc; reflexivity).
  rewrite IH; [reflexivity|].
  rewrite <- app_assoc. exact Hwf.
Qed.

End Dictionaries.

(** The columns of a table, built one after the other: all are built when
    no entry has an empty list of values, and otherwise the constructor of
    the first such entry raises. *)
Lemma new_columns {V : Type} (str : V -> string)
    (entries : list (string * list V)) :
  (Forall (fun kv => kv.2 <> []) entries ->
   comprehension (fun kv => new_Column str kv.1 kv.2) entries
   = Ok (map (fun kv => {| col_name := kv.1; col_values := map str kv.2 |})
             entries))
  /\ (~ Forall (fun kv => kv.2 <> []) entries ->
      comprehension (fun kv => new_Column str kv.1 kv.2) entries
      = Raise (ValueError "values must be supplied")).
Proof.
  induction entries as [|[k v] entries [IHok IHraise]]; simpl.
  - split; [reflexivity|]. intros H. exfalso. apply H. constructor.
  - destruct v as [|x v]; simpl.
    + split; [|reflexivity].
      intros H. apply Forall_cons in H as [H _]. simpl in H. congruence.
    + split.
      * intros H. apply Forall_cons in H as [_ H]. rewrite (IHok H).
        reflexivity.
      * intros H. rewrite IHraise; [reflexivity|].
        intros Hall. apply H. constructor; [simpl; discriminate|exact Hall].
Qed.

(** The table conversion on a dictionary: the constructor of the table on
    the entries of the dictionary. *)
Lemma table_of_entries {V : Type} (str : V -> string)
    (dictionary : dict (list V)) (name description : option string) :
  dict_wf dictionary ->
  dict_to_inlined_table str dictionary name description
  = new_TableAsDict str name description dictionary.
Proof.
  intros Hwf. unfold dict_to_inlined_table.
  pose proof (comprehension_columns [] dictionary Hwf) as H.
  simpl app in H. rewrite H. reflexivity.
Qed.

(** C6, as the code has it: for a dictionary with at least one entry, each
    with at least one value, the table conversion returns a table with one
    column per entry, in the order of the dictionary, each named by the key
    and holding the values of its entry in order, every value stored as
    [str(v)]; no length of a column is compared with another, so columns of
    different lengths are accepted. *)
Theorem table_of_dictionary {V : Type} (str : V -> string)
    (dictionary : dict (list V)) (name description : option string) :
  dict_wf dictionary ->
  dictionary <> [] ->
  Forall (fun kv => kv.2 <> []) dictionary ->
  dict_to_inlined_table str dictionary name description
  = Ok {| table_name := name;
          table_description := description;
          columns :=
            map (fun kv => {| col_name := kv.1;
                              col_values := map str kv.2 |})
                dictionary |}.
Proof.
  intros Hwf Hne Hvalues. rewrite table_of_entries by exact Hwf.
  unfold new_TableAsDict.
  destruct dictionary as [|kv rest]; [congruence|].
  rewrite (proj1 (new_columns str (kv :: rest)) Hvalues). reflexivity.
Qed.

Lemma table_of_dictionary_witness :
  dict_wf ragged_dict
  /\ ragged_dict <> []
  /\ Forall (fun kv => kv.2 <> []) ragged_dict
  /\ dict_to_inlined_table str_of_Z ragged_dict (Some "regions") None
     = Ok {| table_name := Some "regions";
             table_description := None;
             columns :=
               [{| col_name := "nb pixels"; col_values := ["1"; "2"; "3"] |};
                {| col_name := "max intensity"; col_values := ["255"] |}] |}.
Proof.
  assert (dict_wf ragged_dict) as Hwf.
  { unfold dict_wf, ragged_dict. simpl.
    apply (bool_decide_unpack _). vm_compute. exact I. }
  assert (ragged_dict <> []) as Hne by discriminate.
  assert (Forall (fun kv : string * list Z => kv.2 <> []) ragged_dict)
    as Hvalues by (repeat constructor; simpl; discriminate).
  split; [exact Hwf|]. split; [exact Hne|]. split; [exact Hvalues|].
  exact (table_of_dictionary str_of_Z ragged_dict (Some "regions") None
           Hwf Hne Hvalues).
Defined.

(** The table conversion raises on the empty dictionary and on an entry
    with no value, and a column does not hold the values of its entry as
    they are: the integer 255 is stored as the string "255". *)
Lemma table_refused_or_converted :
  (exists e : exn, dict_to_inlined_table str_of_Z [] None None = Raise e)
  /\ (exists e : exn,
        dict_to_inlined_table str_of_Z
          [("nb pixels", [1; 2; 3]%Z); ("max intensity", [])] None None
        = Raise e)
  /\ dict_getitem ragged_dict "max intensity" = Ok [255%Z]
  /\ exists t : TableAsDict,
       dict_to_inlined_table str_of_Z ragged_dict None None = Ok t
       /\ map col_values (columns t) = [["1"; "2"; "3"]; ["255"]].
Proof.
  split; [eexists; reflexivity|]. split; [eexists; reflexivity|].
  split; [reflexivity|]. eexists. split; reflexivity.
Qed.

(** ** The registries *)

(** C9: when two classes have the same name, registering the first and then
    the second with one decorator leaves the second under that name in the
    decorator's registry and leaves the two other registries as they were;
    this holds for each of the three decorators, which return a class and a
    registry state and have no failing case. *)
Theorem registration_overwrites (c1 c2 : pyclass) (g : registries) :
  cls_name c1 = cls_name c2 ->
  (let g' := (register_image_analysis c2 (register_image_analysis c1 g).2).2 in
   IMAGE_ANALYSIS_REGISTRY g' !! cls_name c1 = Some c2
   /\ DATASET_ANALYSIS_REGISTRY g' = DATASET_ANALYSIS_REGISTRY g
   /\ PROGRESSION_ANALYSIS_REGISTRY g' = PROGRESSION_ANALYSIS_REGISTRY g)
  /\ (let g' :=
        (register_dataset_analysis c2 (register_dataset_analysis c1 g).2).2 in
      DATASET_ANALYSIS_REGISTRY g' !! cls_name c1 = Some c2
      /\ IMAGE_ANALYSIS_REGISTRY g' = IMAGE_ANALYSIS_REGISTRY g
      /\ PROGRESSION_ANALYSIS_REGISTRY g' = PROGRESSION_ANALYSIS_REGISTRY g)
  /\ (let g' :=
        (register_progression_analysis c2
           (register_progression_analysis c1 g).2).2 in
      PROGRESSION_ANALYSIS_REGISTRY g' !! cls_name c1 = Some c2
      /\ IMAGE_ANALYSIS_REGISTRY g' = IMAGE_ANALYSIS_REGISTRY g
      /\ DATASET_ANALYSIS_REGISTRY g' = DATASET_ANALYSIS_REGISTRY g).
Proof.
  intros Hname. simpl. rewrite Hname.
  repeat split; apply lookup_insert_eq.
Qed.

Lemma registration_overwrites_witness :
  cls_name first_class = cls_name second_class
  /\ first_class <> second_class
  /\ IMAGE_ANALYSIS_REGISTRY
       (register_image_analysis second_class
          (register_image_analysis first_class empty_registries).2).2
     !! "FieldHomogeneityAnalysis" = Some second_class.
Proof.
  split; [reflexivity|]. split; [discriminate|].
  exact (proj1 (proj1 (registration_overwrites first_class second_class
                         empty_registries eq_refl))).
Defined.

(** ** The analysis contract and [FieldHomogeneityAnalysis] *)

Lemma FieldHomogeneityAnalysis_init_fresh :
  FieldHomogeneityAnalysis_init = Ok fresh_analysis.
Proof. reflexivity. Qed.

Lemma fresh_analysis_unmet :
  list_unmet_requirements fresh_analysis = ["image"].
Proof. reflexivity. Qed.

(** Binding ["image"] on the new instance gives [bound_analysis]. *)
Lemma bind_image (img : Numpy.ndarray) :
  bind fresh_analysis "image" (VArray img) = Ok (bound_analysis img).
Proof. reflexivity. Qed.

Lemma bound_analysis_unmet (img : Numpy.ndarray) :
  list_unmet_requirements (bound_analysis img) = [].
Proof. reflexivity. Qed.

(** An optional requirement with a default and no bound value reads as its
    default. *)
Lemma threshold_default :
  get_metadata_values fresh_analysis "threshold"
  = Ok (VScalar (Numpy.SInt 10)).
Proof. reflexivity. Qed.

Lemma bind_undeclared (v : value) :
  bind fresh_analysis "gain" v = Raise (UnknownRequirementError "gain").
Proof. reflexivity. Qed.

Lemma add_data_requirement_twice :
  add_data_requirement fresh_analysis "image" "again" T_ndarray None false None
  = Raise (DuplicateRequirementError "image").
Proof. reflexivity. Qed.

(** An instance with the data requirements of [FieldHomogeneityAnalysis] and
    no unmet requirement has a value bound to ["image"]. *)
Lemma no_unmet_image_bound (self : analysis) :
  data_requirements self = data_requirements fresh_analysis ->
  list_unmet_requirements self = [] ->
  exists image : value,
    data_values self !! "image" = Some image
    /\ get_data_values self "image" = Ok image.
Proof.
  intros Hreq Hunmet.
  unfold list_unmet_requirements in Hunmet.
  apply app_eq_nil in Hunmet as [Hdata _].
  rewrite Hreq in Hdata. simpl in Hdata.
  unfold get_data_values, get_values.
  destruct (data_values self !! "image") as [image|] eqn:E.
  - exists image. split; reflexivity.
  - exfalso. revert Hdata. unfold unmet. simpl. rewrite E. discriminate.
Qed.

(** C1, as the code has it: [validate_requirements] returns true for every
    analysis instance and does not consult the unmet requirements; its
    result is the emptiness of [list_unmet_requirements] exactly on the
    instances that have no unmet requirement. *)
Theorem validate_requirements_always_true (self : analysis) :
  validate_requirements self = true
  /\ (validate_requirements self
      = bool_decide (list_unmet_requirements self = [])
      <-> list_unmet_requirements self = []).
Proof.
  split; [reflexivity|].
  unfold validate_requirements. split.
  - intros H. symmetry in H. apply bool_decide_eq_true in H. exact H.
  - intros H. symmetry. apply bool_decide_eq_true. exact H.
Qed.

(** The new [FieldHomogeneityAnalysis] has the unmet requirement ["image"],
    and [validate_requirements] returns true on it: the result is not the
    emptiness of the list of unmet requirements. *)
Lemma validate_requirements_with_unmet :
  FieldHomogeneityAnalysis_init = Ok fresh_analysis
  /\ list_unmet_requirements fresh_analysis = ["image"]
  /\ validate_requirements fresh_analysis = true
  /\ bool_decide (list_unmet_requirements fresh_analysis = []) = false.
Proof. repeat split. Qed.

(** C7: when the list of unmet requirements is not empty, [run] returns
    false, raises nothing, and leaves the instance, and with it the output
    sequence, as it was. *)
Theorem run_with_unmet_requirements
    (norm_intensity_profile max_region_info : value -> Numpy.scalar -> result frame)
    (fig_data : value -> nat -> nat -> result frame)
    (profiles_statistics_dict : value -> Numpy.scalar -> result frame)
    (self : analysis) :
  list_unmet_requirements self <> [] ->
  run norm_intensity_profile max_region_info fig_data
      profiles_statistics_dict self
  = (Ok false, self)
  /\ output
       (run norm_intensity_profile max_region_info fig_data
            profiles_statistics_dict self).2
     = output self.
Proof.
  intros Hunmet. unfold run.
  destruct (list_unmet_requirements self) as [|r rs]; [congruence|].
  split; reflexivity.
Qed.

Lemma run_with_unmet_requirements_witness :
  list_unmet_requirements fresh_analysis <> []
  /\ run sample_norm sample_region sample_fig sample_stats fresh_analysis
     = (Ok false, fresh_analysis).
Proof.
  assert (list_unmet_requirements fresh_analysis <> []) as H
    by (rewrite fresh_analysis_unmet; discriminate).
  split; [exact H|].
  exact (proj1 (run_with_unmet_requirements sample_norm sample_region
                  sample_fig sample_stats fresh_analysis H)).
Defined.

(** One step of [run]: either the call [c] returns a value, named [x], or it
    raises and the first alternative of the goal holds with that exception. *)
Ltac step_or_raise c x :=
  let e := fresh "e" in
  destruct c as [x|e]; simpl; [|left; exists e; reflexivity].

(** When a step of [run] raises, the exception leaves [run] and the instance
    is as it was: the four tables are appended after the last step that can
    raise. *)
Lemma run_raise_or_true
    (norm_intensity_profile max_region_info : value -> Numpy.scalar -> result frame)
    (fig_data : value -> nat -> nat -> result frame)
    (profiles_statistics_dict : value -> Numpy.scalar -> result frame)
    (self : analysis) :
  list_unmet_requirements self = [] ->
  (exists e : exn,
     run norm_intensity_profile max_region_info fig_data
         profiles_statistics_dict self = (Raise e, self))
  \/ (exists self' : analysis,
        run norm_intensity_profile max_region_info fig_data
            profiles_statistics_dict self = (Ok true, self')
        /\ length (output self') = length (output self) + 4).
Proof.
  intros Hunmet. unfold run. rewrite Hunmet. simpl.
  step_or_raise (get_data_values self "image") image.
  step_or_raise (get_norm_intensity_matrix norm_intensity_profile image) t2.
  step_or_raise (get_max_intensity_region_table max_region_info image) t1.
  step_or_raise (get_intensity_plot fig_data image) t3.
  step_or_raise
    (get_profile_statistics_table profiles_statistics_dict image) t4.
  right. eexists. split; [reflexivity|].
  simpl. rewrite <- !app_assoc, length_app. simpl. lia.
Qed.

(** C8, as the code has it: when no requirement is unmet, ["image"] has the
    value [image] and the four table functions return on [image], [run]
    returns true and the output sequence is the one before the call followed
    by the four tables max_intensity_region_table, norm_intensity_data,
    intensity_plot_data and profile_stat_table, in this order, which is the
    order of the [append] calls; nothing else of the instance changes. *)
Theorem run_appends_four_tables
    (norm_intensity_profile max_region_info : value -> Numpy.scalar -> result frame)
    (fig_data : value -> nat -> nat -> result frame)
    (profiles_statistics_dict : value -> Numpy.scalar -> result frame)
    (self : analysis) (image : value)
    (norm_intensity_data max_intensity_region_table
       intensity_plot_data profile_stat_table : frame) :
  list_unmet_requirements self = [] ->
  get_data_values self "image" = Ok image ->
  get_norm_intensity_matrix norm_intensity_profile image
  = Ok norm_intensity_data ->
  get_max_intensity_region_table max_region_info image
  = Ok max_intensity_region_table ->
  get_intensity_plot fig_data image = Ok intensity_plot_data ->
  get_profile_statistics_table profiles_statistics_dict image
  = Ok profile_stat_table ->
  exists self' : analysis,
    run norm_intensity_profile max_region_info fig_data
        profiles_statistics_dict self
    = (Ok true, self')
    /\ output self'
       = output self
         ++ [ {| model.name := "max_intensity_region_table";
                 model.description := "Dataframe containing coordinates";
                 model.table := max_intensity_region_table |};
              {| model.name := "norm_intensity_data";
                 model.description := "Dataframe containing coordinates";
                 model.table := norm_intensity_data |};
              {| model.name := "intensity_plot_data";
                 model.description := "Dataframe containing coordinates";
                 model.table := intensity_plot_data |};
              {| model.name := "profile_stat_table";
                 model.description := "Dataframe containing coordinates";
                 model.table := profile_stat_table |} ]
    /\ data_requirements self' = data_requirements self
    /\ metadata_requirements self' = metadata_requirements self
    /\ data_values self' = data_values self
    /\ metadata_values self' = metadata_values self.
Proof.
  intros Hunmet Himage Hnorm Hregion Hplot Hstat.
  unfold run. rewrite Hunmet, Himage. simpl.
  rewrite Hnorm. simpl. rewrite Hregion. simpl.
  rewrite Hplot. simpl. rewrite Hstat. simpl.
  eexists. split; [reflexivity|]. simpl.
  rewrite <- !app_assoc. simpl. repeat split.
Qed.

Lemma run_appends_four_tables_witness :
  list_unmet_requirements (bound_analysis ones_image) = []
  /\ get_data_values (bound_analysis ones_image) "image"
     = Ok (VArray ones_image)
  /\ exists self' : analysis,
       run sample_norm sample_region sample_fig sample_stats
           (bound_analysis ones_image)
       = (Ok true, self')
       /\ map model.name (output self')
          = ["max_intensity_region_table"; "norm_intensity_data";
             "intensity_plot_data"; "profile_stat_table"].
Proof.
  split; [reflexivity|]. split; [reflexivity|].
  destruct (run_appends_four_tables sample_norm sample_region sample_fig
              sample_stats (bound_analysis ones_image) (VArray ones_image)
              _ _ _ _ eq_refl eq_refl eq_refl eq_refl eq_refl eq_refl)
    as (self' & Hrun & Hout & _).
  exists self'. split; [exact Hrun|]. rewrite Hout. reflexivity.
Defined.

(** [np.max] raises exactly on the arrays that have no element. *)
Lemma max_of_empty (a : Numpy.ndarray) :
  Numpy.size a = 0 ->
  Numpy.max a
  = Raise (ValueError
      "zero-size array to reduction operation maximum which has no identity").
Proof.
  intros Hsize. unfold Numpy.max.
  pose proof (length_tolist_flatten a) as Hlen. rewrite Hsize in Hlen.
  destruct (Numpy.tolist (Numpy.flatten a)); [reflexivity | discriminate].
Qed.

Lemma max_of_nonempty (a : Numpy.ndarray) :
  Numpy.size a <> 0 -> exists s : Numpy.scalar, Numpy.max a = Ok s.
Proof.
  intros Hsize. unfold Numpy.max.
  pose proof (length_tolist_flatten a) as Hlen.
  destruct (Numpy.tolist (Numpy.flatten a)) as [|s rest];
    [simpl in Hlen; congruence | eexists; reflexivity].
Qed.

(** With no unmet requirement and an image that has no element, [run]
    raises in its first table function and appends nothing. *)
Lemma run_raises_on_empty_image
    (norm_intensity_profile max_region_info : value -> Numpy.scalar -> result frame)
    (fig_data : value -> nat -> nat -> result frame)
    (profiles_statistics_dict : value -> Numpy.scalar -> result frame)
    (self : analysis) (img : Numpy.ndarray) :
  list_unmet_requirements self = [] ->
  get_data_values self "image" = Ok (VArray img) ->
  Numpy.size img = 0 ->
  run norm_intensity_profile max_region_info fig_data
      profiles_statistics_dict self
  = (Raise (ValueError
       "zero-size array to reduction operation maximum which has no identity"),
     self).
Proof.
  intros Hunmet Himage Hsize. unfold run. rewrite Hunmet, Himage. simpl.
  unfold get_norm_intensity_matrix. simpl asarray.
  rewrite (max_of_empty img Hsize). reflexivity.
Qed.

(** With ["image"] bound to an array of two axes and no element no
    requirement is unmet, and [run] raises the [ValueError] of [np.max]
    whatever the numeric parameters are: it does not return true.  And the
    tables are not appended in the order in which they are computed:
    norm_intensity_data is computed first (when its function and the one of
    max_intensity_region_table both raise, the exception is the former's),
    max_intensity_region_table second, and max_intensity_region_table is
    appended first. *)
Lemma run_empty_image_and_order :
  (list_unmet_requirements (bound_analysis empty_image) = []
   /\ get_data_values (bound_analysis empty_image) "image"
      = Ok (VArray empty_image)
   /\ Numpy.ndim empty_image = 2
   /\ forall (norm_intensity_profile max_region_info
                : value -> Numpy.scalar -> result frame)
             (fig_data : value -> nat -> nat -> result frame)
             (profiles_statistics_dict
                : value -> Numpy.scalar -> result frame),
        run norm_intensity_profile max_region_info fig_data
            profiles_statistics_dict (bound_analysis empty_image)
        = (Raise (ValueError
             "zero-size array to reduction operation maximum which has no identity"),
           bound_analysis empty_image))
  /\ (list_unmet_requirements (bound_analysis ones_image) = []
      /\ run failing_norm failing_region sample_fig sample_stats
             (bound_analysis ones_image)
         = (Raise (ValueError "norm_intensity_data"),
            bound_analysis ones_image)
      /\ run sample_norm failing_region sample_fig sample_stats
             (bound_analysis ones_image)
         = (Raise (ValueError "max_intensity_region_table"),
            bound_analysis ones_image)
      /\ (run sample_norm sample_region sample_fig sample_stats
              (bound_analysis ones_image)).1 = Ok true
      /\ map model.name
             (output (run sample_norm sample_region sample_fig sample_stats
                          (bound_analysis ones_image)).2)
         = ["max_intensity_region_table"; "norm_intensity_data";
            "intensity_plot_data"; "profile_stat_table"]).
Proof.
  split.
  - split; [reflexivity|]. split; [reflexivity|]. split; [reflexivity|].
    intros. reflexivity.
  - repeat split.
Qed.

(** * Further properties *)

(** ** The mask conversion *)

(** X1: an array whose number of dimensions is not 2 is refused with the
    [ValueError] that asks for a 2D array, whatever its element type: the
    dimension is checked before the element type. *)
Theorem mask_requires_two_axes (A : Numpy.ndarray)
    (name description image_url : option string)
    (source_image_url : option url_ref) :
  Numpy.ndim A <> 2 ->
  numpy_to_inlined_mask A name description image_url source_image_url
  = Raise (ValueError "Input array should be 2D").
Proof.
  intros Hd. unfold numpy_to_inlined_mask.
  destruct (Nat.eqb_spec (Numpy.ndim A) 2) as [E|_]; [congruence|].
  reflexivity.
Qed.

Lemma mask_requires_two_axes_witness :
  Numpy.ndim sample_3d <> 2
  /\ Numpy.dtype_of sample_3d <> Numpy.dt_bool
  /\ numpy_to_inlined_mask sample_3d None None None None
     = Raise (ValueError "Input array should be 2D").
Proof.
  assert (Numpy.ndim sample_3d <> 2) as Hd by (vm_compute; lia).
  split; [exact Hd|]. split; [simpl; discriminate|].
  exact (mask_requires_two_axes sample_3d None None None None Hd).
Defined.

Lemma mask_Ok_inv (A : Numpy.ndarray)
    (name description image_url : option string)
    (source_image_url : option url_ref) (m : ImageMask) :
  numpy_to_inlined_mask A name description image_url source_image_url
  = Ok m ->
  Numpy.ndim A = 2
  /\ image_url = Some (mask_image_url m)
  /\ 0 < Numpy.size A
  /\ (Numpy.dtype_of A = Numpy.dt_bool
      /\ mask_data m = Numpy.tolist (Numpy.flatten A)
      \/ Numpy.dtype_of A = Numpy.dt_uint8
         /\ mask_data m
            = map (fun s => Numpy.SBool (Numpy.truth s))
                  (Numpy.tolist (Numpy.flatten A)))
  /\ mask_name m = name
  /\ mask_description m = description
  /\ mask_source_image_url m = url_list source_image_url
  /\ pixel_values (mask_y m) = Numpy.shape_at A 0
  /\ pixel_values (mask_x m) = Numpy.shape_at A 1.
Proof.
  intros Hm.
  assert (Numpy.ndim A = 2) as Hd.
  { destruct (Nat.eq_dec (Numpy.ndim A) 2) as [Hd|Hd]; [exact Hd|].
    unfold numpy_to_inlined_mask in Hm.
    destruct (Nat.eqb_spec (Numpy.ndim A) 2) as [E|_]; [congruence|].
    discriminate. }
  assert (forall data,
            new_ImageMask name description image_url source_image_url data
              {| pixel_values := Numpy.shape_at A 0 |}
              {| pixel_values := Numpy.shape_at A 1 |} = Ok m ->
            length data = length (Numpy.tolist (Numpy.flatten A)) ->
            image_url = Some (mask_image_url m)
            /\ 0 < Numpy.size A
            /\ mask_data m = data
            /\ mask_name m = name
            /\ mask_description m = description
            /\ mask_source_image_url m = url_list source_image_url
            /\ pixel_values (mask_y m) = Numpy.shape_at A 0
            /\ pixel_values (mask_x m) = Numpy.shape_at A 1) as Hnew.
  { intros data Hdata Hlen.
    apply new_ImageMask_inv in Hdata as (Hurl & Hne & ->). simpl.
    split; [exact Hurl|]. split; [|repeat split].
    rewrite length_tolist_flatten in Hlen.
    destruct data; [congruence | simpl in Hlen; lia]. }
  split; [exact Hd|].
  destruct (Numpy.dtype_of A) eqn:Ht;
    try (rewrite mask_of_other_dtype in Hm by (rewrite ?Ht; congruence);
         discriminate).
  - rewrite mask_of_bool in Hm by assumption.
    destruct (Hnew _ Hm eq_refl) as (H1 & H2 & H3 & H4).
    split; [exact H1|]. split; [exact H2|]. split; [left; auto | exact H4].
  - rewrite mask_of_uint8 in Hm by assumption.
    destruct (Hnew _ Hm (length_map _ _)) as (H1 & H2 & H3 & H4).
    split; [exact H1|]. split; [exact H2|]. split; [right; auto | exact H4].
Qed.

(** X2: the mask conversion returns a mask exactly for the arrays of two
    dimensions whose element type is [bool] or [uint8], that have at least
    one element, when an [image_url] is supplied. *)
Theorem mask_returned_iff (A : Numpy.ndarray)
    (name description image_url : option string)
    (source_image_url : option url_ref) :
  (exists m : ImageMask,
     numpy_to_inlined_mask A name description image_url source_image_url
     = Ok m)
  <-> Numpy.ndim A = 2
      /\ (Numpy.dtype_of A = Numpy.dt_bool
          \/ Numpy.dtype_of A = Numpy.dt_uint8)
      /\ is_Some image_url
      /\ 0 < Numpy.size A.
Proof.
  split.
  - intros [m Hm].
    destruct (mask_Ok_inv _ _ _ _ _ _ Hm) as (Hd & Hurl & Hsize & Ht & _).
    split; [exact Hd|]. split; [tauto|]. split; [eauto | exact Hsize].
  - intros (Hd & Ht & [url ->] & Hsize).
    destruct (tolist_flatten_nonempty A Hsize) as (s & rest & Hlist).
    destruct Ht as [Ht|Ht]; eexists.
    + rewrite mask_of_bool by assumption. apply new_ImageMask_Ok.
      rewrite Hlist. discriminate.
    + rewrite mask_of_uint8 by assumption. apply new_ImageMask_Ok.
      rewrite Hlist. discriminate.
Qed.

(** X3: every mask the conversion returns keeps the arguments [name] and
    [description], holds the [image_url] that was supplied, holds
    [source_image_url] as a list ([None] as the empty list, one string as a
    list of one entry), has [y] and [x] equal to the two entries of the
    shape, and holds [y] times [x] data entries, at least one. *)
Theorem mask_shape_invariant (A : Numpy.ndarray)
    (name description image_url : option string)
    (source_image_url : option url_ref) (m : ImageMask) :
  numpy_to_inlined_mask A name description image_url source_image_url
  = Ok m ->
  Numpy.shape A = [pixel_values (mask_y m); pixel_values (mask_x m)]
  /\ length (mask_data m)
     = pixel_values (mask_y m) * pixel_values (mask_x m)
  /\ 0 < length (mask_data m)
  /\ mask_name m = name
  /\ mask_description m = description
  /\ image_url = Some (mask_image_url m)
  /\ mask_source_image_url m
     = match source_image_url with
       | None => []
       | Some (OneUrl url) => [url]
       | Some (ManyUrls urls) => urls
       end.
Proof.
  intros Hm.
  destruct (mask_Ok_inv _ _ _ _ _ _ Hm)
    as (Hd & Hurl & Hsize & Ht & Hn & Hdesc & Hsrc & Hy & Hx).
  assert (length (mask_data m) = Numpy.size A) as Hlen.
  { destruct Ht as [[_ ->]|[_ ->]]; rewrite ?length_map;
      apply length_tolist_flatten. }
  rewrite Hy, Hx, Hlen.
  split; [apply shape_2d; exact Hd|]. split; [apply size_2d; exact Hd|].
  split; [exact Hsize|].
  repeat split; assumption.
Qed.

Lemma mask_shape_invariant_witness :
  exists m : ImageMask,
    numpy_to_inlined_mask sample_gray (Some "cells") None
      (Some "cells.tif") (Some (OneUrl "raw.tif")) = Ok m
    /\ Numpy.shape sample_gray
       = [pixel_values (mask_y m); pixel_values (mask_x m)]
    /\ length (mask_data m) = pixel_values (mask_y m) * pixel_values (mask_x m)
    /\ mask_name m = Some "cells"
    /\ mask_source_image_url m = ["raw.tif"].
Proof.
  eexists. split; [reflexivity|].
  destruct (mask_shape_invariant sample_gray (Some "cells") None
              (Some "cells.tif") (Some (OneUrl "raw.tif")) _ eq_refl)
    as (Hs & Hl & _ & Hn & _ & _ & Hsrc).
  split; [exact Hs|]. split; [exact Hl|]. split; [exact Hn | exact Hsrc].
Defined.

(** X4: casting first changes nothing: for a two-dimensional [uint8] array
    the conversion returns, or raises, the same on the array and on the array
    cast to [bool], and every data entry of a mask it returns is a
    boolean. *)
Theorem mask_of_cast (A B : Numpy.ndarray)
    (name description image_url : option string)
    (source_image_url : option url_ref) :
  Numpy.ndim A = 2 ->
  Numpy.dtype_of A = Numpy.dt_uint8 ->
  Numpy.astype_bool A = Ok B ->
  numpy_to_inlined_mask A name description image_url source_image_url
  = numpy_to_inlined_mask B name description image_url source_image_url
  /\ forall m : ImageMask,
       numpy_to_inlined_mask A name description image_url source_image_url
       = Ok m ->
       forall s : Numpy.scalar,
         s ∈ mask_data m -> exists b : bool, s = Numpy.SBool b.
Proof.
  intros Hd Ht HB. unfold Numpy.astype_bool in HB. injection HB as <-.
  split.
  - rewrite mask_of_uint8 by assumption.
    rewrite mask_of_bool by (first [exact Hd | reflexivity]).
    unfold Numpy.shape_at. simpl. f_equal.
    rewrite !tolist_flatten. simpl. rewrite map_map. reflexivity.
  - intros m Hm s Hs.
    destruct (mask_Ok_inv _ _ _ _ _ _ Hm) as (_ & _ & _ & Hdata & _).
    destruct Hdata as [[Hb _]|[_ Hdata]]; [congruence|].
    rewrite Hdata in Hs.
    apply list_elem_of_fmap in Hs as (s' & -> & _).
    eexists. reflexivity.
Qed.

Lemma mask_of_cast_witness :
  Numpy.ndim sample_gray = 2
  /\ Numpy.dtype_of sample_gray = Numpy.dt_uint8
  /\ exists (B : Numpy.ndarray) (m : ImageMask),
       Numpy.astype_bool sample_gray = Ok B
       /\ numpy_to_inlined_mask sample_gray None None (Some "gray.tif") None
          = Ok m
       /\ numpy_to_inlined_mask B None None (Some "gray.tif") None = Ok m.
Proof.
  split; [reflexivity|]. split; [reflexivity|].
  do 2 eexists. split; [reflexivity|]. split; [reflexivity|].
  rewrite <- (proj1 (mask_of_cast sample_gray _ None None (Some "gray.tif")
                       None eq_refl eq_refl eq_refl)).
  reflexivity.
Defined.

(** ** The image conversion *)

Lemma ravel_index_acc (acc : nat) (dims ix : list nat) :
  length ix = length dims ->
  ravel_index acc dims ix = acc * Numpy.prod dims + ravel_index 0 dims ix.
Proof.
  revert acc ix. induction dims as [|n dims IH]; intros acc [|i ix] Hlen;
    simpl in *; try discriminate; [lia|].
  injection Hlen as Hlen.
  rewrite (IH (acc * n + i)), (IH i) by exact Hlen. lia.
Qed.

(** The row-major order: a multi-index within the shape sits at its ravelled
    position. *)
Lemma indices_ravel_lookup (dims ix : list nat) :
  Forall2 lt ix dims ->
  ravel_index 0 dims ix < Numpy.prod dims
  /\ Numpy.indices dims !! ravel_index 0 dims ix = Some ix.
Proof.
  induction 1 as [|i n ix dims Hi Hrest [IHlt IHat]].
  - simpl. split; [lia | reflexivity].
  - assert (length ix = length dims) as Hlen
      by (eapply Forall2_length; eassumption).
    change (ravel_index 0 (n :: dims) (i :: ix))
      with (ravel_index (0 * n + i) dims ix).
    rewrite ravel_index_acc by exact Hlen. simpl Nat.add at 1.
    split.
    + simpl Numpy.prod. nia.
    + rewrite indices_cons_lookup by assumption.
      rewrite IHat. reflexivity.
Qed.

Lemma flat_data_lookup (A : Numpy.ndarray) (ix : list nat) :
  Forall2 lt ix (Numpy.shape A) ->
  Numpy.tolist (Numpy.flatten A) !! ravel_index 0 (Numpy.shape A) ix
  = Some (Numpy.item A ix).
Proof.
  intros Hix. rewrite tolist_flatten, list_lookup_fmap.
  destruct (indices_ravel_lookup _ _ Hix) as [_ ->]. reflexivity.
Qed.

Lemma image_5d_inv (A : Numpy.ndarray)
    (name description image_url : option string)
    (source_image_url : option url_ref) (i : Image5D) :
  numpy_to_inlined_image A name description image_url source_image_url
  = Ok (InlineImage5D i) ->
  Numpy.ndim A = 5
  /\ img5_data i = map py_float (Numpy.tolist (Numpy.flatten A))
  /\ Numpy.shape A
     = [time_values (img5_t i); pixel_values (img5_z i);
        pixel_values (img5_y i); pixel_values (img5_x i);
        channel_values (img5_c i)].
Proof.
  unfold numpy_to_inlined_image. intros H.
  destruct (Nat.eqb_spec (Numpy.ndim A) 5) as [Hd|_].
  - unfold new_Image5D in H.
    destruct image_url; [|discriminate].
    destruct (Numpy.tolist (Numpy.flatten A)) eqn:E; [discriminate|].
    simpl in H. injection H as <-. simpl.
    split; [exact Hd|]. split; [reflexivity | apply shape_5d; exact Hd].
  - destruct (Numpy.ndim A =? 2)%nat; [|discriminate].
    destruct (new_Image2D _ _ _ _ _ _ _); discriminate.
Qed.

Lemma image_2d_inv (A : Numpy.ndarray)
    (name description image_url : option string)
    (source_image_url : option url_ref) (i : Image2D) :
  numpy_to_inlined_image A name description image_url source_image_url
  = Ok (InlineImage2D i) ->
  Numpy.ndim A = 2
  /\ img2_data i = map py_float (Numpy.tolist (Numpy.flatten A))
  /\ Numpy.shape A = [pixel_values (img2_y i); pixel_values (img2_x i)].
Proof.
  unfold numpy_to_inlined_image. intros H.
  destruct (Nat.eqb_spec (Numpy.ndim A) 5) as [Hd|_].
  { destruct (new_Image5D _ _ _ _ _ _ _ _ _ _); discriminate. }
  destruct (Nat.eqb_spec (Numpy.ndim A) 2) as [Hd|_]; [|discriminate].
  unfold new_Image2D in H.
  destruct image_url; [|discriminate].
  destruct (Numpy.tolist (Numpy.flatten A)) eqn:E; [discriminate|].
  simpl in H. injection H as <-. simpl.
  split; [exact Hd|]. split; [reflexivity | apply shape_2d; exact Hd].
Qed.

(** X5: in a five-dimensional image the conversion returns, the data entry
    at position (((t * Z + z) * Y + y) * X + x) * C + c, where Z, Y, X and C
    are the sizes the image declares, is [float] of the element of the array
    at (t, z, y, x, c); in a two-dimensional image the data entry at position
    y * X + x is [float] of the element at (y, x). *)
Theorem image_data_lookup (A : Numpy.ndarray)
    (name description image_url : option string)
    (source_image_url : option url_ref) :
  (forall i : Image5D,
     numpy_to_inlined_image A name description image_url source_image_url
     = Ok (InlineImage5D i) ->
     forall t z y x c : nat,
       t < time_values (img5_t i) -> z < pixel_values (img5_z i) ->
       y < pixel_values (img5_y i) -> x < pixel_values (img5_x i) ->
       c < channel_values (img5_c i) ->
       img5_data i
         !! ((((t * pixel_values (img5_z i) + z) * pixel_values (img5_y i)
               + y) * pixel_values (img5_x i) + x)
             * channel_values (img5_c i) + c)
       = Some (py_float (Numpy.item A [t; z; y; x; c])))
  /\ (forall i : Image2D,
        numpy_to_inlined_image A name description image_url source_image_url
        = Ok (InlineImage2D i) ->
        forall y x : nat,
          y < pixel_values (img2_y i) -> x < pixel_values (img2_x i) ->
          img2_data i !! (y * pixel_values (img2_x i) + x)
          = Some (py_float (Numpy.item A [y; x]))).
Proof.
  split.
  - intros i Hi t z y x c Ht Hz Hy Hx Hc.
    apply image_5d_inv in Hi as (_ & -> & Hshape).
    pose proof (flat_data_lookup A [t; z; y; x; c]) as H.
    rewrite Hshape in H. simpl in H.
    rewrite list_lookup_fmap, H by (repeat constructor; assumption).
    reflexivity.
  - intros i Hi y x Hy Hx.
    apply image_2d_inv in Hi as (_ & -> & Hshape).
    pose proof (flat_data_lookup A [y; x]) as H.
    rewrite Hshape in H. simpl in H.
    rewrite list_lookup_fmap, H by (repeat constructor; assumption).
    reflexivity.
Qed.

Lemma image_data_lookup_witness :
  exists i : Image5D,
    numpy_to_inlined_image sample_5d None None (Some "stack.tif") None
    = Ok (InlineImage5D i)
    /\ img5_data i !! ((((0 * 2 + 1) * 2 + 1) * 3 + 2) * 2 + 1)
       = Some (Numpy.SFloat 5).
Proof.
  eexists. split; [reflexivity|].
  apply (proj1 (image_data_lookup sample_5d None None (Some "stack.tif")
                  None)
           _ eq_refl 0 1 1 2 1); unfold Numpy.shape_at; simpl; lia.
Defined.


(** X7: on a two-dimensional boolean array with at least one element, and
    with an [image_url], the mask conversion and the image conversion both
    return; they store the same sizes and the same [image_url], and the data
    of the image are the data of the mask converted with [float] (1.0 for
    true and 0.0 for false). *)
Theorem mask_and_image_agree (A : Numpy.ndarray)
    (name description : option string) (image_url : string)
    (source_image_url : option url_ref) :
  Numpy.ndim A = 2 ->
  Numpy.dtype_of A = Numpy.dt_bool ->
  0 < Numpy.size A ->
  exists (m : ImageMask) (i : Image2D),
    numpy_to_inlined_mask A name description (Some image_url)
      source_image_url
    = Ok m
    /\ numpy_to_inlined_image A name description (Some image_url)
         source_image_url
       = Ok (InlineImage2D i)
    /\ img2_data i = map py_float (mask_data m)
    /\ mask_y m = img2_y i
    /\ mask_x m = img2_x i
    /\ mask_image_url m = img2_image_url i.
Proof.
  intros Hd Ht Hsize.
  assert (Numpy.tolist (Numpy.flatten A) <> []) as Hdata.
  { destruct (tolist_flatten_nonempty A Hsize) as (s & rest & ->).
    discriminate. }
  do 2 eexists. split.
  { rewrite mask_of_bool by assumption.
    apply new_ImageMask_Ok. exact Hdata. }
  unfold numpy_to_inlined_image. rewrite Hd.
  change (2 =? 5)%nat with false. change (2 =? 2)%nat with true.
  cbv beta iota. rewrite new_Image2D_Ok by exact Hdata.
  split; [reflexivity|]. simpl. repeat split.
Qed.

Lemma mask_and_image_agree_witness :
  Numpy.ndim sample_mask = 2
  /\ Numpy.dtype_of sample_mask = Numpy.dt_bool
  /\ 0 < Numpy.size sample_mask
  /\ exists (m : ImageMask) (i : Image2D),
       numpy_to_inlined_mask sample_mask None None (Some "mask_0.tif") None
       = Ok m
       /\ numpy_to_inlined_image sample_mask None None (Some "mask_0.tif")
            None
          = Ok (InlineImage2D i)
       /\ img2_data i = map py_float (mask_data m).
Proof.
  assert (0 < Numpy.size sample_mask) as Hsize by (vm_compute; lia).
  split; [reflexivity|]. split; [reflexivity|]. split; [exact Hsize|].
  destruct (mask_and_image_agree sample_mask None None "mask_0.tif" None
              eq_refl eq_refl Hsize) as (m & i & Hm & Hi & Hdata & _).
  exists m, i. split; [exact Hm|]. split; [exact Hi | exact Hdata].
Defined.

(** ** The table conversion *)

Lemma dict_getitem_elem_of {V : Type} (d : dict V) (k : string) (v : V) :
  dict_wf d -> (dict_getitem d k = Ok v <-> (k, v) ∈ d).
Proof.
  unfold dict_wf. induction d as [|[k' v'] d IH]; simpl; intros Hwf.
  - split; [discriminate | intros H; inversion H].
  - apply NoDup_cons in Hwf as [Hk' Hwf].
    destruct (String.eqb_spec k' k) as [->|Hne].
    + split.
      * intros H. injection H as ->. left.
      * intros H. apply elem_of_cons in H as [H|H].
        -- injection H as ->. reflexivity.
        -- exfalso. apply Hk'. apply list_elem_of_fmap.
           exists (k, v). split; [reflexivity | exact H].
    + rewrite (IH Hwf). split.
      * intros H. right. exact H.
      * intros H. apply elem_of_cons in H as [H|H]; [congruence | exact H].
Qed.

(** X8: in the table of a dictionary the column names are the keys of the
    dictionary in order, no name occurs twice, and the table has a column
    named [k] with the values [vs] exactly when the dictionary maps [k] to a
    list whose entries, each converted with [str], are [vs]. *)
Theorem table_columns_are_entries {V : Type} (str : V -> string)
    (dictionary : dict (list V)) (name description : option string)
    (t : TableAsDict) :
  dict_wf dictionary ->
  dict_to_inlined_table str dictionary name description = Ok t ->
  map col_name (columns t) = dict_keys dictionary
  /\ NoDup (map col_name (columns t))
  /\ forall (k : string) (vs : list string),
       {| col_name := k; col_values := vs |} ∈ columns t
       <-> exists values : list V,
             dict_getitem dictionary k = Ok values
             /\ vs = map str values.
Proof.
  intros Hwf Ht. rewrite table_of_entries in Ht by exact Hwf.
  unfold new_TableAsDict in Ht.
  destruct dictionary as [|kv rest] eqn:Hdict; [discriminate|].
  rewrite <- Hdict in *. clear Hdict kv rest.
  destruct (decide (Forall (fun kv : string * list V => kv.2 <> [])
                           dictionary)) as [Hall|Hnot].
  2: { rewrite (proj2 (new_columns str dictionary) Hnot) in Ht.
       discriminate. }
  rewrite (proj1 (new_columns str dictionary) Hall) in Ht.
  simpl in Ht. injection Ht as <-. simpl.
  assert (map col_name
            (map (fun kv : string * list V =>
                    {| col_name := kv.1; col_values := map str kv.2 |})
                 dictionary)
          = dict_keys dictionary) as Hnames.
  { rewrite map_map. reflexivity. }
  split; [exact Hnames|]. split; [rewrite Hnames; exact Hwf|].
  intros k vs. rewrite list_elem_of_fmap. split.
  - intros [[k' v'] [E Hin]]. injection E as -> ->.
    exists v'. split; [|reflexivity].
    apply dict_getitem_elem_of; assumption.
  - intros (values & Hget & ->).
    exists (k, values). split; [reflexivity|].
    apply dict_getitem_elem_of; assumption.
Qed.

Lemma table_columns_are_entries_witness :
  dict_wf ragged_dict
  /\ exists t : TableAsDict,
       dict_to_inlined_table str_of_Z ragged_dict None None = Ok t
       /\ map col_name (columns t) = ["nb pixels"; "max intensity"]
       /\ {| col_name := "max intensity"; col_values := ["255"] |}
          ∈ columns t.
Proof.
  assert (dict_wf ragged_dict) as Hwf.
  { unfold dict_wf, ragged_dict. simpl.
    apply (bool_decide_unpack _). vm_compute. exact I. }
  split; [exact Hwf|]. eexists. split; [reflexivity|].
  destruct (table_columns_are_entries str_of_Z ragged_dict None None _
              Hwf eq_refl) as (Hnames & _ & Hcols).
  split; [exact Hnames|]. apply Hcols.
  exists [255%Z]. split; reflexivity.
Defined.

(** ** The registries, continued *)

(** X9: a registration changes one name of one registry: in the registry of
    the decorator every other name keeps what it had, and the two other
    registries are untouched.  This holds for the three decorators. *)
Theorem registration_frame (cls : pyclass) (g : registries) (n : string) :
  n <> cls_name cls ->
  (let g' := (register_image_analysis cls g).2 in
   IMAGE_ANALYSIS_REGISTRY g' !! n = IMAGE_ANALYSIS_REGISTRY g !! n
   /\ DATASET_ANALYSIS_REGISTRY g' = DATASET_ANALYSIS_REGISTRY g
   /\ PROGRESSION_ANALYSIS_REGISTRY g' = PROGRESSION_ANALYSIS_REGISTRY g)
  /\ (let g' := (register_dataset_analysis cls g).2 in
      DATASET_ANALYSIS_REGISTRY g' !! n = DATASET_ANALYSIS_REGISTRY g !! n
      /\ IMAGE_ANALYSIS_REGISTRY g' = IMAGE_ANALYSIS_REGISTRY g
      /\ PROGRESSION_ANALYSIS_REGISTRY g' = PROGRESSION_ANALYSIS_REGISTRY g)
  /\ (let g' := (register_progression_analysis cls g).2 in
      PROGRESSION_ANALYSIS_REGISTRY g' !! n
      = PROGRESSION_ANALYSIS_REGISTRY g !! n
      /\ IMAGE_ANALYSIS_REGISTRY g' = IMAGE_ANALYSIS_REGISTRY g
      /\ DATASET_ANALYSIS_REGISTRY g' = DATASET_ANALYSIS_REGISTRY g).
Proof.
  intros Hn. simpl.
  repeat split; apply lookup_insert_ne; congruence.
Qed.

Lemma registration_frame_witness :
  cls_name first_class <> cls_name third_class
  /\ IMAGE_ANALYSIS_REGISTRY
       (register_image_analysis third_class
          (register_image_analysis first_class empty_registries).2).2
     !! cls_name first_class = Some first_class.
Proof.
  assert (cls_name first_class <> cls_name third_class) as Hn
    by (simpl; discriminate).
  split; [exact Hn|].
  rewrite (proj1 (proj1 (registration_frame third_class
                           (register_image_analysis first_class
                              empty_registries).2
                           (cls_name first_class) Hn))).
  reflexivity.
Defined.

(** X10: registering a class a second time changes nothing, and two
    registrations of classes with different names give the same registry in
    either order. *)
Theorem registration_idempotent_commutes (c1 c2 : pyclass) (g : registries) :
  (register_image_analysis c1 (register_image_analysis c1 g).2).2
  = (register_image_analysis c1 g).2
  /\ (cls_name c1 <> cls_name c2 ->
      (register_image_analysis c2 (register_image_analysis c1 g).2).2
      = (register_image_analysis c1 (register_image_analysis c2 g).2).2).
Proof.
  unfold register_image_analysis. simpl. split.
  - f_equal. apply insert_insert_eq.
  - intros Hn. f_equal. apply insert_insert_ne. congruence.
Qed.

Lemma registration_idempotent_commutes_witness :
  cls_name first_class <> cls_name third_class
  /\ (register_image_analysis third_class
        (register_image_analysis first_class empty_registries).2).2
     = (register_image_analysis first_class
          (register_image_analysis third_class empty_registries).2).2.
Proof.
  assert (cls_name first_class <> cls_name third_class) as Hn
    by (simpl; discriminate).
  split; [exact Hn|].
  exact (proj2 (registration_idempotent_commutes first_class third_class
                  empty_registries) Hn).
Defined.

Lemma register_image_analyses_snoc (classes : list pyclass) (cls : pyclass)
    (g : registries) :
  register_image_analyses (classes ++ [cls]) g
  = (register_image_analysis cls (register_image_analyses classes g)).2.
Proof. unfold register_image_analyses. rewrite fold_left_app. reflexivity. Qed.

(** X11: after the classes of a list are registered one after the other, a
    name is bound to the last class of the list that has this name, and to
    what the registry held before when no class of the list has it. *)
Theorem last_registration_wins (classes : list pyclass) (g : registries)
    (n : string) :
  IMAGE_ANALYSIS_REGISTRY (register_image_analyses classes g) !! n
  = match List.find (fun cls => String.eqb (cls_name cls) n) (rev classes) with
    | Some cls => Some cls
    | None => IMAGE_ANALYSIS_REGISTRY g !! n
    end.
Proof.
  induction classes as [|cls classes IH] using rev_ind; [reflexivity|].
  rewrite register_image_analyses_snoc, rev_app_distr. simpl.
  destruct (String.eqb_spec (cls_name cls) n) as [<-|Hn].
  - apply lookup_insert_eq.
  - rewrite lookup_insert_ne by exact Hn. exact IH.
Qed.

(** ** The x axis of an intensity profile *)

Lemma round_half_span (n : Z) :
  (0 <= n)%Z ->
  (round_half (- n) <= 0 < round_half (n + 2))%Z
  /\ (round_half (n + 2) - round_half (- n) = n + 1)%Z.
Proof.
  intros Hn. unfold round_half. rewrite !Zeven_mod.
  repeat match goal with
         | |- context [Z.eqb ?a ?b] => destruct (Z.eqb_spec a b)
         end;
    Z.div_mod_to_equations; lia.
Qed.

Lemma round_half_within (m : Z) :
  (0 <= m)%Z -> (0 <= round_half m <= m)%Z.
Proof.
  intros Hm. unfold round_half. rewrite !Zeven_mod.
  repeat match goal with
         | |- context [Z.eqb ?a ?b] => destruct (Z.eqb_spec a b)
         end;
    Z.div_mod_to_equations; lia.
Qed.

Lemma arange_seqZ (start stop : Z) :
  arange start stop = seqZ start (stop - start).
Proof.
  unfold arange, seqZ. apply map_ext. intros i. lia.
Qed.

Lemma arange_app (a b c : Z) :
  (a <= b <= c)%Z -> arange a c = arange a b ++ arange b c.
Proof.
  intros H. rewrite !arange_seqZ.
  replace (c - a)%Z with ((b - a) + (c - b))%Z by lia.
  rewrite seqZ_app by lia. do 2 f_equal; lia.
Qed.

Lemma elem_of_arange (a b x : Z) : x ∈ arange a b <-> (a <= x < b)%Z.
Proof. rewrite arange_seqZ, elem_of_seqZ. lia. Qed.

Lemma length_arange (a b : Z) : length (arange a b) = Z.to_nat (b - a).
Proof. unfold arange. rewrite length_map, length_seq. reflexivity. Qed.

Lemma filter_all {A : Type} (f : A -> bool) (l : list A) :
  (forall x, x ∈ l -> f x = true) -> List.filter f l = l.
Proof.
  induction l as [|x l IH]; intros H; simpl; [reflexivity|].
  rewrite (H x) by left. f_equal. apply IH.
  intros y Hy. apply H. right. exact Hy.
Qed.

(** Dropping 0 from a range that holds it. *)
Lemma arange_without_zero (lo hi : Z) :
  (lo <= 0 < hi)%Z ->
  List.filter (fun x => negb (x =? 0)%Z) (arange lo hi)
  = arange lo 0 ++ arange 1 hi.
Proof.
  intros H.
  rewrite (arange_app lo 0 hi), (arange_app 0 1 hi) by lia.
  rewrite !List.filter_app.
  rewrite (filter_all _ (arange lo 0)), (filter_all _ (arange 1 hi)).
  - reflexivity.
  - intros x Hx. apply elem_of_arange in Hx.
    apply negb_true_iff, Z.eqb_neq. lia.
  - intros x Hx. apply elem_of_arange in Hx.
    apply negb_true_iff, Z.eqb_neq. lia.
Qed.

Lemma get_x_axis_split {A : Type} (y_axis : list A) :
  let n := Z.of_nat (length y_axis) in
  get_x_axis y_axis
  = arange (round_half (- n)) 0 ++ arange 1 (round_half (n + 2)).
Proof.
  intros n. unfold get_x_axis. fold n.
  apply arange_without_zero.
  apply (round_half_span n). lia.
Qed.

Lemma length_get_x_axis {A : Type} (y_axis : list A) :
  length (get_x_axis y_axis) = length y_axis.
Proof.
  rewrite get_x_axis_split, length_app, !length_arange.
  pose proof (round_half_span (Z.of_nat (length y_axis))) as H.
  lia.
Qed.

(** X12: the x axis has as many entries as the profile it is computed for,
    whatever the number of pixels: the range built from the two rounded
    halves has one entry more, and dropping the 0 removes exactly one. *)
Theorem get_x_axis_length {A : Type} (y_axis : list A) :
  length (get_x_axis y_axis) = length y_axis
  /\ length (get_x_axis y_axis)
     = length (arange (round_half (- Z.of_nat (length y_axis)))
                      (round_half (Z.of_nat (length y_axis) + 2))) - 1.
Proof.
  split; [apply length_get_x_axis|].
  rewrite length_get_x_axis, length_arange.
  pose proof (round_half_span (Z.of_nat (length y_axis))) as H.
  lia.
Qed.

(** X13: the x axis never holds 0 and counts upwards, jumping from -1 to 1.
    For a profile of [2 * k] pixels it runs from [-k] to [k]; for
    [2 * k + 1] pixels the rounding of the half puts the extra entry on the
    right when [k] is even (from [-k] to [k + 1]) and on the left when [k] is
    odd (from [-k - 1] to [k]). *)
Theorem get_x_axis_values {A : Type} (y_axis : list A) (k : nat) :
  (0%Z ∉ get_x_axis y_axis)
  /\ (length y_axis = 2 * k ->
      get_x_axis y_axis
      = arange (- Z.of_nat k) 0 ++ arange 1 (Z.of_nat k + 1))
  /\ (length y_axis = 2 * k + 1 -> Nat.even k = true ->
      get_x_axis y_axis
      = arange (- Z.of_nat k) 0 ++ arange 1 (Z.of_nat k + 2))
  /\ (length y_axis = 2 * k + 1 -> Nat.even k = false ->
      get_x_axis y_axis
      = arange (- Z.of_nat k - 1) 0 ++ arange 1 (Z.of_nat k + 1)).
Proof.
  rewrite get_x_axis_split. split; [|split; [|split]].
  - intros H. apply elem_of_app in H as [H|H];
      apply elem_of_arange in H; lia.
  - intros ->. unfold round_half. rewrite !Zeven_mod.
    replace ((- Z.of_nat (2 * k)) mod 2)%Z with 0%Z
      by (Z.div_mod_to_equations; lia).
    replace ((Z.of_nat (2 * k) + 2) mod 2)%Z with 0%Z
      by (Z.div_mod_to_equations; lia).
    simpl. do 2 f_equal; Z.div_mod_to_equations; lia.
  - intros -> Hk. apply Nat.even_spec in Hk as [j ->].
    unfold round_half. rewrite !Zeven_mod.
    repeat match goal with
           | |- context [Z.eqb ?a ?b] => destruct (Z.eqb_spec a b)
           end;
      do 2 f_equal; Z.div_mod_to_equations; lia.
  - intros -> Hk.
    assert (Nat.odd k = true) as Hodd
      by (rewrite <- Nat.negb_even, Hk; reflexivity).
    apply Nat.odd_spec in Hodd as [j ->].
    unfold round_half. rewrite !Zeven_mod.
    repeat match goal with
           | |- context [Z.eqb ?a ?b] => destruct (Z.eqb_spec a b)
           end;
      do 2 f_equal; Z.div_mod_to_equations; lia.
Qed.

Lemma get_x_axis_values_witness :
  (length [1; 2; 3; 4] = 2 * 2
   /\ get_x_axis [1; 2; 3; 4] = [-2; -1; 1; 2]%Z)
  /\ (length [1; 2; 3; 4; 5] = 2 * 2 + 1 /\ Nat.even 2 = true
      /\ get_x_axis [1; 2; 3; 4; 5] = [-2; -1; 1; 2; 3]%Z)
  /\ (length [1; 2; 3] = 2 * 1 + 1 /\ Nat.even 1 = false
      /\ get_x_axis [1; 2; 3] = [-2; -1; 1]%Z).
Proof.
  split; [|split].
  - split; [reflexivity|].
    exact (proj1 (proj2 (get_x_axis_values [1; 2; 3; 4] 2)) eq_refl).
  - split; [reflexivity|]. split; [reflexivity|].
    exact (proj1 (proj2 (proj2 (get_x_axis_values [1; 2; 3; 4; 5] 2)))
             eq_refl eq_refl).
  - split; [reflexivity|]. split; [reflexivity|].
    exact (proj2 (proj2 (proj2 (get_x_axis_values [1; 2; 3] 1)))
             eq_refl eq_refl).
Defined.

(** ** The pixels of a line *)

Lemma axis_index_Some (n : nat) (i : Z) (k : nat) :
  axis_index n i = Some k
  <-> (- Z.of_nat n <= i < Z.of_nat n)%Z
      /\ k = Z.to_nat (i mod Z.of_nat n).
Proof.
  assert ((0 <= i < Z.of_nat n)%Z -> (i mod Z.of_nat n = i)%Z) as Hpos
    by (intros H; apply Z.mod_small; exact H).
  assert ((- Z.of_nat n <= i < 0)%Z ->
          (i mod Z.of_nat n = Z.of_nat n + i)%Z) as Hneg
    by (intros H; symmetry; apply Z.mod_unique with (q := (-1)%Z); lia).
  unfold axis_index.
  destruct (Z.leb_spec 0 i), (Z.ltb_spec i (Z.of_nat n)),
    (Z.leb_spec (- Z.of_nat n) i), (Z.ltb_spec i 0); simpl;
    try lia;
    (split;
     [ intros E;
       first [ discriminate E
             | injection E as <-; rewrite ?Hpos, ?Hneg by lia;
               split; [lia | reflexivity] ]
     | intros [Hr ->];
       first [ lia | rewrite ?Hpos, ?Hneg by lia; reflexivity ] ]).
Qed.

Lemma axis_index_is_Some (n : nat) (i : Z) :
  is_Some (axis_index n i) <-> (- Z.of_nat n <= i < Z.of_nat n)%Z.
Proof.
  split.
  - intros [k Hk]. apply axis_index_Some in Hk. tauto.
  - intros H. eexists. apply axis_index_Some. split; [exact H | reflexivity].
Qed.

Lemma getitem2_Some (img : Numpy.ndarray) (r c : Z) (v : Numpy.scalar) :
  getitem2 img r c = Some v
  <-> (- Z.of_nat (Numpy.shape_at img 0) <= r
       < Z.of_nat (Numpy.shape_at img 0))%Z
      /\ (- Z.of_nat (Numpy.shape_at img 1) <= c
          < Z.of_nat (Numpy.shape_at img 1))%Z
      /\ v = Numpy.item img
               [Z.to_nat (r mod Z.of_nat (Numpy.shape_at img 0));
                Z.to_nat (c mod Z.of_nat (Numpy.shape_at img 1))].
Proof.
  unfold getitem2. split.
  - destruct (axis_index (Numpy.shape_at img 0) r) as [i|] eqn:Hi;
      simpl; [|discriminate].
    destruct (axis_index (Numpy.shape_at img 1) c) as [j|] eqn:Hj;
      simpl; [|discriminate].
    apply axis_index_Some in Hi as [Hr ->].
    apply axis_index_Some in Hj as [Hc ->].
    intros [= <-]. auto.
  - intros (Hr & Hc & ->).
    rewrite (proj2 (axis_index_Some _ r _) (conj Hr eq_refl)). simpl.
    rewrite (proj2 (axis_index_Some _ c _) (conj Hc eq_refl)). reflexivity.
Qed.

Lemma line_values_is_Some (draw_line : Z -> Z -> Z -> Z -> list (Z * Z))
    (img : Numpy.ndarray) (x0 y0 xf yf : Z) :
  is_Some (get_pixel_values_of_line draw_line img x0 y0 xf yf)
  <-> Forall (fun rc =>
                (- Z.of_nat (Numpy.shape_at img 0) <= rc.1
                 < Z.of_nat (Numpy.shape_at img 0))%Z
                /\ (- Z.of_nat (Numpy.shape_at img 1) <= rc.2
                    < Z.of_nat (Numpy.shape_at img 1))%Z)
             (draw_line x0 y0 xf yf).
Proof.
  unfold get_pixel_values_of_line.
  rewrite mapM_is_Some. apply Forall_iff. intros [r c]. simpl.
  split.
  - intros [v Hv]. apply getitem2_Some in Hv. tauto.
  - intros [Hr Hc]. eexists. apply getitem2_Some. eauto.
Qed.

(** X14: the pixels of a line are read when every point of the line has its
    row and its column within the image, counting a negative index from the
    end, and only then; the result has one value per point, the element at
    the row and the column of that point. *)
Theorem pixel_values_of_line (draw_line : Z -> Z -> Z -> Z -> list (Z * Z))
    (img : Numpy.ndarray) (x0 y0 xf yf : Z) :
  let rows := Z.of_nat (Numpy.shape_at img 0) in
  let cols := Z.of_nat (Numpy.shape_at img 1) in
  (is_Some (get_pixel_values_of_line draw_line img x0 y0 xf yf)
   <-> Forall (fun rc => (- rows <= rc.1 < rows)%Z
                         /\ (- cols <= rc.2 < cols)%Z)
              (draw_line x0 y0 xf yf))
  /\ forall values : list Numpy.scalar,
       get_pixel_values_of_line draw_line img x0 y0 xf yf = Some values ->
       length values = length (draw_line x0 y0 xf yf)
       /\ forall (k : nat) (r c : Z),
            draw_line x0 y0 xf yf !! k = Some (r, c) ->
            values !! k
            = Some (Numpy.item img [Z.to_nat (r mod rows);
                                    Z.to_nat (c mod cols)]).
Proof.
  intros rows cols. split; [apply line_values_is_Some|].
  unfold get_pixel_values_of_line.
  - intros values Hv. split.
    + symmetry. eapply length_mapM. exact Hv.
    + intros k r c Hk. apply mapM_Some_1 in Hv.
      destruct (Forall2_lookup_l _ _ _ _ _ Hv Hk) as (v & Hvk & Hget).
      simpl in Hget. apply getitem2_Some in Hget as (_ & _ & ->).
      exact Hvk.
Qed.

Lemma pixel_values_of_line_witness :
  get_pixel_values_of_line sample_line sample_ramp 0 0 (-1) (-1)
  = Some [Numpy.SInt 0; Numpy.SInt 11]
  /\ length [Numpy.SInt 0; Numpy.SInt 11]
     = length (sample_line 0 0 (-1) (-1))
  /\ get_pixel_values_of_line sample_line sample_ramp 0 0 3 3 = None.
Proof.
  split; [reflexivity|]. split; [|reflexivity].
  exact (proj1 (proj2 (pixel_values_of_line sample_line sample_ramp
                         0 0 (-1) (-1)) _ eq_refl)).
Defined.

(** ** The intensity profiles *)

(** X15: when [get_intensity_plot] gets its four lines, the dictionary it
    builds has the eight keys x_axis_V_seg, y_axis_V_seg, x_axis_H_seg,
    y_axis_H_seg, x_axis_diagUD, y_axis_diagUD, x_axis_diagDU and
    y_axis_diagDU in this order, and each x axis has the length of its y
    axis. *)
Theorem intensity_plot_axes (draw_line : Z -> Z -> Z -> Z -> list (Z * Z))
    (img : Numpy.ndarray) (xmax ymax : nat) (fig_data : frame) :
  intensity_plot_lines draw_line img xmax ymax = Some fig_data ->
  exists xV yV xH yH xUD yUD xDU yDU : list cell,
    fig_data
    = [("x_axis_V_seg", xV); ("y_axis_V_seg", yV);
       ("x_axis_H_seg", xH); ("y_axis_H_seg", yH);
       ("x_axis_diagUD", xUD); ("y_axis_diagUD", yUD);
       ("x_axis_diagDU", xDU); ("y_axis_diagDU", yDU)]
    /\ length xV = length yV
    /\ length xH = length yH
    /\ length xUD = length yUD
    /\ length xDU = length yDU.
Proof.
  unfold intensity_plot_lines. intros H.
  destruct (get_pixel_values_of_line draw_line img 0
              (round_half (Z.of_nat ymax - 1)) (Z.of_nat xmax - 1)
              (round_half (Z.of_nat ymax - 1))) as [V_seg|];
    simpl in H; [|discriminate].
  destruct (get_pixel_values_of_line draw_line img
              (round_half (Z.of_nat xmax - 1)) 0
              (round_half (Z.of_nat xmax - 1)) (Z.of_nat ymax - 1))
    as [H_seg|]; simpl in H; [|discriminate].
  destruct (get_pixel_values_of_line draw_line img 0 0
              (Z.of_nat xmax - 1) (Z.of_nat ymax - 1)) as [diagUD|];
    simpl in H; [|discriminate].
  destruct (get_pixel_values_of_line draw_line img (Z.of_nat xmax - 1) 0
              0 (Z.of_nat ymax - 1)) as [diagDU|];
    simpl in H; [|discriminate].
  injection H as <-. do 8 eexists. split; [reflexivity|].
  rewrite !length_map, !length_get_x_axis. auto.
Qed.

Lemma intensity_plot_axes_witness :
  exists fig_data : frame,
    intensity_plot_lines sample_line sample_ramp 3 4 = Some fig_data
    /\ map fst fig_data
       = ["x_axis_V_seg"; "y_axis_V_seg"; "x_axis_H_seg"; "y_axis_H_seg";
          "x_axis_diagUD"; "y_axis_diagUD"; "x_axis_diagDU"; "y_axis_diagDU"].
Proof.
  eexists. split; [reflexivity|].
  destruct (intensity_plot_axes sample_line sample_ramp 3 4 _ eq_refl)
    as (xV & yV & xH & yH & xUD & yUD & xDU & yDU & E & _).
  reflexivity.
Defined.

(** A line drawn between two pixels of the image, by a [draw.line] that
    stays in the rectangle of its two end points, is read. *)
Lemma line_in_box_is_Some (draw_line : Z -> Z -> Z -> Z -> list (Z * Z))
    (img : Numpy.ndarray) (x0 y0 xf yf : Z) :
  (forall r0 c0 r1 c1 r c : Z,
     (r, c) ∈ draw_line r0 c0 r1 c1 ->
     (Z.min r0 r1 <= r <= Z.max r0 r1)%Z
     /\ (Z.min c0 c1 <= c <= Z.max c0 c1)%Z) ->
  (0 <= x0 < Z.of_nat (Numpy.shape_at img 0))%Z ->
  (0 <= xf < Z.of_nat (Numpy.shape_at img 0))%Z ->
  (0 <= y0 < Z.of_nat (Numpy.shape_at img 1))%Z ->
  (0 <= yf < Z.of_nat (Numpy.shape_at img 1))%Z ->
  is_Some (get_pixel_values_of_line draw_line img x0 y0 xf yf).
Proof.
  intros Hbox Hx0 Hxf Hy0 Hyf.
  apply line_values_is_Some, Forall_forall. intros [r c] Hin.
  destruct (Hbox _ _ _ _ _ _ Hin) as [Hr Hc]. simpl. lia.
Qed.

(** X16: on an image with two axes and at least one pixel, when [draw.line]
    stays in the rectangle of its two end points, the four lines of
    [get_intensity_plot] (the middle column, the middle row and the two
    diagonals) lie within the image: no index is out of range and the
    dictionary is returned. *)
Theorem intensity_plot_in_bounds
    (draw_line : Z -> Z -> Z -> Z -> list (Z * Z)) (img : Numpy.ndarray)
    (xmax ymax : nat) :
  (forall r0 c0 r1 c1 r c : Z,
     (r, c) ∈ draw_line r0 c0 r1 c1 ->
     (Z.min r0 r1 <= r <= Z.max r0 r1)%Z
     /\ (Z.min c0 c1 <= c <= Z.max c0 c1)%Z) ->
  Numpy.shape img = [xmax; ymax] ->
  0 < xmax -> 0 < ymax ->
  exists fig_data : frame,
    intensity_plot_lines draw_line img xmax ymax = Some fig_data.
Proof.
  intros Hbox Hshape Hx Hy.
  assert (Numpy.shape_at img 0 = xmax) as H0
    by (unfold Numpy.shape_at; rewrite Hshape; reflexivity).
  assert (Numpy.shape_at img 1 = ymax) as H1
    by (unfold Numpy.shape_at; rewrite Hshape; reflexivity).
  pose proof (round_half_within (Z.of_nat xmax - 1)) as Hxm.
  pose proof (round_half_within (Z.of_nat ymax - 1)) as Hym.
  unfold intensity_plot_lines.
  destruct (line_in_box_is_Some draw_line img 0
              (round_half (Z.of_nat ymax - 1)) (Z.of_nat xmax - 1)
              (round_half (Z.of_nat ymax - 1)) Hbox) as [V_seg ->];
    try lia.
  destruct (line_in_box_is_Some draw_line img
              (round_half (Z.of_nat xmax - 1)) 0
              (round_half (Z.of_nat xmax - 1)) (Z.of_nat ymax - 1) Hbox)
    as [H_seg ->]; try lia.
  destruct (line_in_box_is_Some draw_line img 0 0
              (Z.of_nat xmax - 1) (Z.of_nat ymax - 1) Hbox)
    as [diagUD ->]; try lia.
  destruct (line_in_box_is_Some draw_line img (Z.of_nat xmax - 1) 0
              0 (Z.of_nat ymax - 1) Hbox)
    as [diagDU ->]; try lia.
  simpl. eexists. reflexivity.
Qed.

Lemma sample_line_in_box (r0 c0 r1 c1 r c : Z) :
  (r, c) ∈ sample_line r0 c0 r1 c1 ->
  (Z.min r0 r1 <= r <= Z.max r0 r1)%Z
  /\ (Z.min c0 c1 <= c <= Z.max c0 c1)%Z.
Proof.
  unfold sample_line. intros H.
  apply elem_of_cons in H as [H|H].
  - injection H as -> ->. lia.
  - apply elem_of_cons in H as [H|H]; [|inversion H].
    injection H as -> ->. lia.
Qed.

Lemma intensity_plot_in_bounds_witness :
  Numpy.shape sample_ramp = [3; 4]
  /\ 0 < 3 /\ 0 < 4
  /\ exists fig_data : frame,
       intensity_plot_lines sample_line sample_ramp 3 4 = Some fig_data.
Proof.
  split; [reflexivity|]. split; [lia|]. split; [lia|].
  apply (intensity_plot_in_bounds sample_line sample_ramp 3 4
           sample_line_in_box eq_refl); lia.
Defined.

(** ** The maximum and its position *)

Lemma scalar_value_None (s : Numpy.scalar) :
  Numpy.scalar_value s = None <-> s = Numpy.SNaN.
Proof. destruct s as [[|]|z|q|]; simpl; split; congruence. Qed.

Lemma scalar_max_spec (s1 s2 : Numpy.scalar) :
  s1 <> Numpy.SNaN -> s2 <> Numpy.SNaN ->
  (Numpy.scalar_max s1 s2 = s1 \/ Numpy.scalar_max s1 s2 = s2)
  /\ value_le s1 (Numpy.scalar_max s1 s2)
  /\ value_le s2 (Numpy.scalar_max s1 s2).
Proof.
  intros H1 H2. unfold Numpy.scalar_max, value_le.
  destruct (Numpy.scalar_value s1) as [v1|] eqn:E1;
    [|apply scalar_value_None in E1; congruence].
  destruct (Numpy.scalar_value s2) as [v2|] eqn:E2;
    [|apply scalar_value_None in E2; congruence].
  destruct (Qle_bool v1 v2) eqn:E; rewrite ?E1, ?E2.
  - apply Qle_bool_iff in E. split; [right; reflexivity|].
    split; [exact E | apply Qle_refl].
  - split; [left; reflexivity|]. split; [apply Qle_refl|].
    apply Qlt_le_weak, Qnot_le_lt. intros H.
    apply Qle_bool_iff in H. congruence.
Qed.

Lemma value_le_trans (s1 s2 s3 : Numpy.scalar) :
  value_le s1 s2 -> value_le s2 s3 -> value_le s1 s3.
Proof.
  unfold value_le.
  destruct (Numpy.scalar_value s1), (Numpy.scalar_value s2),
    (Numpy.scalar_value s3); try tauto.
  apply Qle_trans.
Qed.

Lemma value_le_refl (s : Numpy.scalar) : s <> Numpy.SNaN -> value_le s s.
Proof.
  intros H. unfold value_le.
  destruct (Numpy.scalar_value s) eqn:E; [apply Qle_refl|].
  apply scalar_value_None in E. congruence.
Qed.

(** The fold of [np.max] over elements none of which is [nan] returns an
    element of the list that is at least every element. *)
Lemma fold_scalar_max_spec (rest : list Numpy.scalar) (s : Numpy.scalar) :
  (forall e : Numpy.scalar, e ∈ s :: rest -> e <> Numpy.SNaN) ->
  fold_left Numpy.scalar_max rest s ∈ s :: rest
  /\ forall e : Numpy.scalar,
       e ∈ s :: rest ->
       value_le e (fold_left Numpy.scalar_max rest s).
Proof.
  revert s. induction rest as [|r rest IH]; intros s Hnan; simpl.
  - split; [left|]. intros e He. apply list_elem_of_singleton in He as ->.
    apply value_le_refl, Hnan. left.
  - assert (s <> Numpy.SNaN) as Hs by (apply Hnan; left).
    assert (r <> Numpy.SNaN) as Hr by (apply Hnan; right; left).
    destruct (scalar_max_spec s r Hs Hr) as (Hcase & Hles & Hler).
    destruct (IH (Numpy.scalar_max s r)) as [Hin Hge].
    { intros e He. apply elem_of_cons in He as [->|He].
      - destruct Hcase as [-> | ->]; assumption.
      - apply Hnan. right. right. exact He. }
    split.
    + apply elem_of_cons in Hin as [Hin|Hin].
      * rewrite Hin. destruct Hcase as [-> | ->];
          [left | right; left].
      * right. right. exact Hin.
    + intros e He.
      assert (value_le (Numpy.scalar_max s r)
                (fold_left Numpy.scalar_max rest (Numpy.scalar_max s r)))
        as Hm by (apply Hge; left).
      apply elem_of_cons in He as [->|He].
      * eapply value_le_trans; eassumption.
      * apply elem_of_cons in He as [->|He].
        -- eapply value_le_trans; eassumption.
        -- apply Hge. right. exact He.
Qed.

(** The fold of [np.max] over elements one of which is [nan] returns
    [nan]. *)
Lemma fold_scalar_max_nan (rest : list Numpy.scalar) (s : Numpy.scalar) :
  Numpy.SNaN ∈ s :: rest ->
  fold_left Numpy.scalar_max rest s = Numpy.SNaN.
Proof.
  revert s. induction rest as [|r rest IH]; intros s Hin; simpl.
  - apply list_elem_of_singleton in Hin. congruence.
  - apply IH. apply elem_of_cons.
    apply elem_of_cons in Hin as [Hs|Hin].
    + subst s. left. reflexivity.
    + apply elem_of_cons in Hin as [Hr|Hin]; [|right; exact Hin].
      subst r. left. unfold Numpy.scalar_max.
      destruct (Numpy.scalar_value s) eqn:E; [reflexivity|].
      apply scalar_value_None in E. symmetry. exact E.
Qed.

(** [find] returns the first entry that passes the test. *)
Lemma find_first {A : Type} (f : A -> bool) (l : list A) (x : A) :
  List.find f l = Some x ->
  exists k : nat,
    l !! k = Some x /\ f x = true
    /\ forall (j : nat) (y : A), j < k -> l !! j = Some y -> f y = false.
Proof.
  induction l as [|a l IH]; simpl; [discriminate|].
  destruct (f a) eqn:Ha.
  - intros [= <-]. exists 0. split; [reflexivity|]. split; [exact Ha|].
    intros j y Hj. lia.
  - intros H. destruct (IH H) as (k & Hk & Hfx & Hbefore).
    exists (S k). split; [exact Hk|]. split; [exact Hfx|].
    intros [|j] y Hj Hy.
    + injection Hy as <-. exact Ha.
    + simpl in Hy. apply (Hbefore j y); [lia | exact Hy].
Qed.

Lemma find_is_Some {A : Type} (f : A -> bool) (l : list A) (x : A) :
  x ∈ l -> f x = true -> exists y : A, List.find f l = Some y.
Proof.
  intros Hin Hfx. destruct (List.find f l) as [y|] eqn:E; [eauto|].
  apply list_elem_of_In in Hin.
  rewrite (find_none f l E x Hin) in Hfx. discriminate.
Qed.

(** In the row-major order of two axes, position [k] holds the row
    [k / cols] and the column [k mod cols]. *)
Lemma indices_2d_position (rows cols k : nat) (ix : list nat) :
  Numpy.indices [rows; cols] !! k = Some ix ->
  0 < cols
  /\ ix = [k / cols; k mod cols]
  /\ k / cols < rows.
Proof.
  intros Hk.
  assert (k < rows * cols) as Hlt.
  { apply lookup_lt_Some in Hk. rewrite length_indices in Hk.
    simpl in Hk. lia. }
  assert (0 < cols) as Hc by nia.
  assert (k / cols < rows) as Hr
    by (apply Nat.Div0.div_lt_upper_bound; lia).
  split; [exact Hc|]. split; [|exact Hr].
  pose proof (indices_2d_lookup rows cols (k / cols) (k mod cols) Hr) as H.
  rewrite (Nat.mul_comm (k / cols) cols), <- Nat.div_mod_eq in H.
  rewrite H in Hk by (apply Nat.mod_upper_bound; lia).
  congruence.
Qed.

Lemma scalar_eqb_iff (s1 s2 : Numpy.scalar) :
  scalar_eqb s1 s2 = true <-> value_eq s1 s2.
Proof.
  unfold scalar_eqb, value_eq.
  destruct (Numpy.scalar_value s1), (Numpy.scalar_value s2);
    try (split; [discriminate | tauto]).
  apply Qeq_bool_iff.
Qed.

Lemma find_none_all {A : Type} (f : A -> bool) (l : list A) :
  (forall x : A, f x = false) -> List.find f l = None.
Proof.
  intros H. induction l as [|a l IH]; simpl; [reflexivity|].
  rewrite H. exact IH.
Qed.

(** X17: on an image with two axes and at least one pixel that holds no
    [nan], [np.max] returns a value and [np.where] finds it: the position
    kept for the maximum lies in the image, holds a value equal to the
    maximum, which no pixel exceeds, and is the first such position in
    row-major order.  On an image that holds a [nan], [np.max] returns [nan],
    no pixel is equal to it and no position is found: the subscript
    [xx_max[0]] raises. *)
Theorem maximum_is_found (img : Numpy.ndarray) (rows cols : nat) :
  Numpy.shape img = [rows; cols] ->
  0 < rows -> 0 < cols ->
  ((forall x' y' : nat,
      x' < rows -> y' < cols -> Numpy.item img [x'; y'] <> Numpy.SNaN) ->
   exists (max_intensity : Numpy.scalar) (x y : nat),
     Numpy.max img = Ok max_intensity
     /\ max_found_at img max_intensity = Some (x, y)
     /\ x < rows /\ y < cols
     /\ value_eq (Numpy.item img [x; y]) max_intensity
     /\ (forall x' y' : nat,
           x' < rows -> y' < cols ->
           value_le (Numpy.item img [x'; y']) max_intensity)
     /\ (forall x' y' : nat,
           x' < rows -> y' < cols ->
           x' * cols + y' < x * cols + y ->
           ~ value_eq (Numpy.item img [x'; y']) max_intensity))
  /\ ((exists x' y' : nat,
         x' < rows /\ y' < cols /\ Numpy.item img [x'; y'] = Numpy.SNaN) ->
      Numpy.max img = Ok Numpy.SNaN
      /\ max_found_at img Numpy.SNaN = None).
Proof.
  intros Hshape Hrows Hcols.
  assert (forall x' y', x' < rows -> y' < cols ->
            Numpy.tolist (Numpy.flatten img) !! (x' * cols + y')
            = Some (Numpy.item img [x'; y'])) as Hat.
  { intros x' y' Hx' Hy'.
    rewrite tolist_flatten, list_lookup_fmap, Hshape.
    rewrite indices_2d_lookup by assumption. reflexivity. }
  assert (forall e, e ∈ Numpy.tolist (Numpy.flatten img) ->
            exists x' y', x' < rows /\ y' < cols
                          /\ e = Numpy.item img [x'; y']) as Hfrom.
  { intros e He. rewrite tolist_flatten, Hshape in He.
    apply list_elem_of_fmap in He as (ix & -> & Hix).
    apply list_elem_of_lookup in Hix as [k Hk].
    destruct (indices_2d_position rows cols k ix Hk) as (_ & -> & Hx).
    exists (k / cols), (k mod cols).
    split; [exact Hx|]. split; [apply Nat.mod_upper_bound; lia|].
    reflexivity. }
  unfold Numpy.max.
  destruct (Numpy.tolist (Numpy.flatten img)) as [|s rest] eqn:Hlist.
  { specialize (Hat 0 0 Hrows Hcols). discriminate Hat. }
  split.
  - intros Hnan.
    destruct (fold_scalar_max_spec rest s) as [Hin Hge].
    { intros e He. destruct (Hfrom e He) as (x' & y' & Hx' & Hy' & ->).
      apply Hnan; assumption. }
    set (m := fold_left Numpy.scalar_max rest s) in *.
    assert (m <> Numpy.SNaN) as Hm_nan.
    { destruct (Hfrom m Hin) as (x' & y' & Hx' & Hy' & ->).
      apply Hnan; assumption. }
    rewrite <- Hlist, tolist_flatten in Hin.
    apply list_elem_of_fmap in Hin as (ixm & Hm & Hixm).
    destruct (find_is_Some
                (fun ix => scalar_eqb (Numpy.item img ix) m)
                (Numpy.indices (Numpy.shape img)) ixm Hixm) as [ix Hfind].
    { rewrite <- Hm. apply scalar_eqb_iff. unfold value_eq.
      destruct (Numpy.scalar_value m) eqn:E; [apply Qeq_refl|].
      apply scalar_value_None in E. congruence. }
    destruct (find_first _ _ _ Hfind) as (k & Hk & Heq & Hbefore).
    rewrite Hshape in Hk.
    destruct (indices_2d_position rows cols k ix Hk) as (_ & -> & Hx).
    assert (k mod cols < cols) as Hy by (apply Nat.mod_upper_bound; lia).
    exists m, (k / cols), (k mod cols).
    split; [reflexivity|].
    split; [unfold max_found_at; rewrite Hfind; reflexivity|].
    split; [exact Hx|]. split; [exact Hy|].
    split; [apply scalar_eqb_iff; exact Heq|]. split.
    + intros x' y' Hx' Hy'. apply Hge.
      apply list_elem_of_lookup. exists (x' * cols + y').
      apply Hat; assumption.
    + intros x' y' Hx' Hy' Hlt Heq'.
      assert (scalar_eqb (Numpy.item img [x'; y']) m = false) as Hne.
      { apply (Hbefore (x' * cols + y')).
        - rewrite (Nat.div_mod_eq k cols). lia.
        - rewrite Hshape. apply indices_2d_lookup; assumption. }
      apply scalar_eqb_iff in Heq'. congruence.
  - intros (x' & y' & Hx' & Hy' & Hnan). split.
    + f_equal. apply fold_scalar_max_nan.
      rewrite <- Hnan. apply list_elem_of_lookup.
      exists (x' * cols + y'). apply Hat; assumption.
    + unfold max_found_at. rewrite find_none_all; [reflexivity|].
      intros ix. unfold scalar_eqb. simpl.
      destruct (Numpy.scalar_value (Numpy.item img ix)); reflexivity.
Qed.

Lemma maximum_is_found_witness :
  (Numpy.shape sample_two_peaks = [2; 2]
   /\ 0 < 2
   /\ Numpy.max sample_two_peaks = Ok (Numpy.SInt 9)
   /\ max_found_at sample_two_peaks (Numpy.SInt 9) = Some (0, 1)
   /\ exists (max_intensity : Numpy.scalar) (x y : nat),
        Numpy.max sample_two_peaks = Ok max_intensity
        /\ max_found_at sample_two_peaks max_intensity = Some (x, y)
        /\ x < 2 /\ y < 2)
  /\ (Numpy.shape sample_nan = [2; 2]
      /\ Numpy.item sample_nan [1; 0] = Numpy.SNaN
      /\ Numpy.max sample_nan = Ok Numpy.SNaN
      /\ max_found_at sample_nan Numpy.SNaN = None).
Proof.
  split.
  - split; [reflexivity|]. split; [lia|].
    split; [reflexivity|]. split; [reflexivity|].
    destruct (proj1 (maximum_is_found sample_two_peaks 2 2 eq_refl
                       ltac:(lia) ltac:(lia)))
      as (m & x & y & Hmax & Hfound & Hx & Hy & _).
    { intros [|[|x']] [|[|y']] Hx' Hy'; try lia; simpl; discriminate. }
    exists m, x, y. auto.
  - split; [reflexivity|]. split; [reflexivity|].
    apply (proj2 (maximum_is_found sample_nan 2 2 eq_refl
                    ltac:(lia) ltac:(lia))).
    exists 1, 0. split; [lia|]. split; [lia | reflexivity].
Defined.

(** ** The profile statistics *)

Lemma axis_index_nat (n k : nat) :
  k < n -> axis_index n (Z.of_nat k) = Some k.
Proof.
  intros Hk. apply axis_index_Some. split; [lia|].
  rewrite Z.mod_small by lia. lia.
Qed.

Lemma axis_index_zero (n : nat) : 0 < n -> axis_index n 0 = Some 0.
Proof. intros Hn. exact (axis_index_nat n 0 Hn). Qed.

Lemma axis_index_last (n : nat) : 0 < n -> axis_index n (-1) = Some (n - 1).
Proof.
  intros Hn. apply axis_index_Some. split; [lia|].
  replace ((-1) mod Z.of_nat n)%Z with (Z.of_nat n - 1)%Z
    by (apply Z.mod_unique with (q := (-1)%Z); lia).
  lia.
Qed.

(** X18: on an image of [rows] by [cols] pixels, at least one each way, the
    profile statistics have three columns of nine entries.  In the order of
    the labels top-left corner, upper-middle pixel, top-right corner,
    left-middle pixel, maximum, right-middle pixel, bottom-left corner,
    bottom-middle pixel and bottom-right corner, the intensities are read at
    the (row, column) positions (0, 0), (rows / 2, 0), (rows - 1, 0),
    (0, cols / 2), the maximum itself, (rows - 1, cols / 2), (0, cols - 1),
    (rows / 2, cols - 1) and (rows - 1, cols - 1): the first index of the
    image varies fastest, so the entry labelled top-right corner is the pixel
    of the last row and the first column.  The relative intensity of the
    maximum is 1. *)
Theorem profile_statistics_pixels
    (around2 : Numpy.scalar -> Numpy.scalar)
    (divide : Numpy.scalar -> Numpy.scalar -> Numpy.scalar)
    (repr_index : nat -> string)
    (img : Numpy.ndarray) (rows cols : nat)
    (max_intensity : Numpy.scalar) (x y : nat) :
  Numpy.shape img = [rows; cols] ->
  0 < rows -> 0 < cols ->
  max_found_at img max_intensity = Some (x, y) ->
  let pixel := fun r c => around2 (Numpy.item img [r; c]) in
  let relative := fun r c => around2 (divide (pixel r c) max_intensity) in
  profile_statistics_rows around2 divide repr_index img max_intensity
  = Some
      [("location",
        map CStr
          ["top-left corner"; "upper-middle pixel"; "top-right corner";
           "left-middle pixel";
           "maximum found at [" +:+ repr_index x +:+ ", "
             +:+ repr_index y +:+ "]";
           "right-middle pixel"; "bottom-left corner";
           "bottom-middle pixel"; "bottom-right corner"]);
       ("intensity",
        map CNum
          [pixel 0 0; pixel (rows / 2) 0; pixel (rows - 1) 0;
           pixel 0 (cols / 2); max_intensity; pixel (rows - 1) (cols / 2);
           pixel 0 (cols - 1); pixel (rows / 2) (cols - 1);
           pixel (rows - 1) (cols - 1)]);
       ("intensity relative to max",
        map CNum
          [relative 0 0; relative (rows / 2) 0; relative (rows - 1) 0;
           relative 0 (cols / 2); Numpy.SFloat 1;
           relative (rows - 1) (cols / 2);
           relative 0 (cols - 1); relative (rows / 2) (cols - 1);
           relative (rows - 1) (cols - 1)])].
Proof.
  intros Hshape Hrows Hcols Hfound pixel relative.
  assert (Numpy.shape_at img 0 = rows) as H0
    by (unfold Numpy.shape_at; rewrite Hshape; reflexivity).
  assert (Numpy.shape_at img 1 = cols) as H1
    by (unfold Numpy.shape_at; rewrite Hshape; reflexivity).
  assert (rows / 2 < rows) as Hr by (apply Nat.div_lt; lia).
  assert (cols / 2 < cols) as Hc by (apply Nat.div_lt; lia).
  unfold profile_statistics_rows, meshgrid, getitem2.
  rewrite Hfound, H0, H1. simpl.
  rewrite !axis_index_zero, !axis_index_last, !axis_index_nat by assumption.
  reflexivity.
Qed.

Lemma profile_statistics_pixels_witness :
  Numpy.shape sample_ramp = [3; 4]
  /\ max_found_at sample_ramp (Numpy.SInt 11) = Some (2, 3)
  /\ exists table : frame,
       profile_statistics_rows (fun v => v) (fun v _ => v) str_of_nat
         sample_ramp (Numpy.SInt 11) = Some table
       /\ table !! 1
          = Some ("intensity",
                  map (fun z => CNum (Numpy.SInt z))
                      [0; 4; 8; 2; 11; 10; 3; 7; 11]%Z).
Proof.
  split; [reflexivity|]. split; [reflexivity|].
  eexists. split.
  - exact (profile_statistics_pixels (fun v => v) (fun v _ => v) str_of_nat
             sample_ramp 3 4 (Numpy.SInt 11) 2 3 eq_refl
             ltac:(lia) ltac:(lia) eq_refl).
  - reflexivity.
Defined.

(** ** [run], continued *)

(** The branches of [run] that end before the first [append]. *)
Ltac nothing_appended :=
  repeat (split; [reflexivity|]);
  exists []; split; [rewrite app_nil_r; reflexivity|];
  right; split; [discriminate | reflexivity].

(** X19: whatever [run] returns or raises, it leaves the requirements and the
    bound values of the instance as they were and keeps every artifact of the
    output in place; it appends four tables when it returns true and nothing
    otherwise. *)
Theorem run_extends_output
    (norm_intensity_profile max_region_info : value -> Numpy.scalar -> result frame)
    (fig_data : value -> nat -> nat -> result frame)
    (profiles_statistics_dict : value -> Numpy.scalar -> result frame)
    (self : analysis) :
  let r :=
    run norm_intensity_profile max_region_info fig_data
        profiles_statistics_dict self in
  data_requirements r.2 = data_requirements self
  /\ metadata_requirements r.2 = metadata_requirements self
  /\ data_values r.2 = data_values self
  /\ metadata_values r.2 = metadata_values self
  /\ output_description r.2 = output_description self
  /\ exists new : list model.Table,
       output r.2 = output self ++ new
       /\ (r.1 = Ok true /\ length new = 4
           \/ r.1 <> Ok true /\ new = []).
Proof.
  unfold run.
  destruct (negb _); simpl; [nothing_appended|].
  destruct (get_data_values self "image") as [image|e]; simpl;
    [|nothing_appended].
  destruct (get_norm_intensity_matrix norm_intensity_profile image)
    as [t2|e]; simpl; [|nothing_appended].
  destruct (get_max_intensity_region_table max_region_info image)
    as [t1|e]; simpl; [|nothing_appended].
  destruct (get_intensity_plot fig_data image) as [t3|e]; simpl;
    [|nothing_appended].
  destruct (get_profile_statistics_table profiles_statistics_dict image)
    as [t4|e]; simpl; [|nothing_appended].
  repeat (split; [reflexivity|]).
  eexists. rewrite <- !app_assoc. simpl.
  split; [reflexivity|]. left. split; reflexivity.
Qed.

(** X20: [run] returns false exactly when a requirement is unmet; a table
    function that cannot proceed ends [run] with its exception, never with
    false. *)
Theorem run_false_iff
    (norm_intensity_profile max_region_info : value -> Numpy.scalar -> result frame)
    (fig_data : value -> nat -> nat -> result frame)
    (profiles_statistics_dict : value -> Numpy.scalar -> result frame)
    (self : analysis) :
  (run norm_intensity_profile max_region_info fig_data
       profiles_statistics_dict self).1 = Ok false
  <-> list_unmet_requirements self <> [].
Proof.
  unfold run.
  destruct (list_unmet_requirements self) as [|r rs]; simpl.
  - split; [|congruence].
    destruct (get_data_values self "image") as [image|e]; simpl;
      [|discriminate].
    destruct (get_norm_intensity_matrix norm_intensity_profile image);
      simpl; [|discriminate].
    destruct (get_max_intensity_region_table max_region_info image);
      simpl; [|discriminate].
    destruct (get_intensity_plot fig_data image); simpl; [|discriminate].
    destruct (get_profile_statistics_table profiles_statistics_dict image);
      simpl; discriminate.
  - split; [discriminate | reflexivity].
Qed.

(** X21: with no unmet requirement and an image whose number of dimensions
    is not 2, [run] does not return: the unpacking of [np.shape(img)] in
    [get_intensity_plot] raises [ValueError] at the latest, and the instance
    is left as it was. *)
Theorem run_on_wrong_rank
    (norm_intensity_profile max_region_info : value -> Numpy.scalar -> result frame)
    (fig_data : value -> nat -> nat -> result frame)
    (profiles_statistics_dict : value -> Numpy.scalar -> result frame)
    (self : analysis) (image : value) :
  list_unmet_requirements self = [] ->
  get_data_values self "image" = Ok image ->
  Numpy.ndim (asarray image) <> 2 ->
  (exists msg : string,
     get_intensity_plot fig_data image = Raise (ValueError msg))
  /\ exists e : exn,
       run norm_intensity_profile max_region_info fig_data
           profiles_statistics_dict self
       = (Raise e, self).
Proof.
  intros Hunmet Himage Hd.
  assert (exists msg : string,
            get_intensity_plot fig_data image = Raise (ValueError msg))
    as [msg Hplot].
  { unfold get_intensity_plot. unfold Numpy.ndim in Hd.
    destruct (Numpy.shape (asarray image)) as [|a [|b [|c l]]];
      simpl in Hd; try (eexists; reflexivity). congruence. }
  split; [eauto|].
  unfold run. rewrite Hunmet, Himage. simpl.
  destruct (get_norm_intensity_matrix norm_intensity_profile image);
    simpl; [|eauto].
  destruct (get_max_intensity_region_table max_region_info image);
    simpl; [|eauto].
  rewrite Hplot. simpl. eauto.
Qed.

Lemma run_on_wrong_rank_witness :
  list_unmet_requirements (bound_analysis sample_3d) = []
  /\ get_data_values (bound_analysis sample_3d) "image"
     = Ok (VArray sample_3d)
  /\ Numpy.ndim (asarray (VArray sample_3d)) <> 2
  /\ run sample_norm sample_region sample_fig sample_stats
         (bound_analysis sample_3d)
     = (Raise (ValueError "too many values to unpack (expected 2)"),
        bound_analysis sample_3d).
Proof.
  assert (Numpy.ndim (asarray (VArray sample_3d)) <> 2) as Hd
    by (vm_compute; lia).
  split; [reflexivity|]. split; [reflexivity|]. split; [exact Hd|].
  destruct (run_on_wrong_rank sample_norm sample_region sample_fig
              sample_stats (bound_analysis sample_3d) (VArray sample_3d)
              eq_refl eq_refl Hd) as [_ [e He]].
  reflexivity.
Defined.
